(** * Timezone display utilities of the date filter control

    A shallow embedding of
    [superset-frontend/src/explore/components/controls/DateFilterControl/utils/timezoneUtils.ts]
    ([convertUTCToTimezone]) and of its hard-wired sibling [convertUTCToIST].

    Both functions are written against the JavaScript [Date] builtin, so the
    first half of this file is a model of the part of ECMA-262 (section
    "Date Objects") that they call: time values, the calendar functions
    behind [getUTCFullYear] and friends, [Date.parse] for the date-time
    string format, and the two string helpers [String.prototype.includes]
    and [String.prototype.padStart].  What the standard leaves to the
    implementation (the local time zone, and the treatment of strings
    outside the standard format) is a [Host] record that every function
    takes as an argument.

    JavaScript strings are modelled as [string], holding the UTF-8 bytes of
    the text.  The source only compares strings for equality, concatenates
    them and looks for the ASCII characters [Z], [+] and [T]; none of these
    operations can tell UTF-8 bytes from UTF-16 code units. *)

From Stdlib Require Import ZArith Lia Bool List.
From Stdlib Require Import Ascii String.
Import ListNotations.

Local Open Scope string_scope.
Local Open Scope Z_scope.

(** ** JavaScript numbers, as far as the source needs them *)

Module JS.

(** The numbers that occur are time values, calendar fields and their sums
    with the constant [5.5 * 60 * 60 * 1000]; all are integers of magnitude
    below [2^53], or [NaN]. *)
Inductive number : Type :=
  | NaN : number
  | Int : Z -> number.

Definition add (a b : number) : number :=
  match a, b with
  | Int x, Int y => Int (x + y)
  | _, _ => NaN
  end.

(** Decimal digits of a natural number, most significant first. *)
Definition digit_char (d : Z) : ascii := ascii_of_N (Z.to_N (48 + d)).

Fixpoint digits_fuel (fuel : nat) (n : Z) (acc : string) : string :=
  match fuel with
  | O => acc
  | S f =>
      let acc' := String (digit_char (n mod 10)) acc in
      if n <? 10 then acc' else digits_fuel f (n / 10) acc'
  end.

Definition digits (n : Z) : string :=
  digits_fuel (S (Z.to_nat (Z.log2 n))) n EmptyString.

(** [String(n)] / template-literal interpolation of a number. *)
Definition ToString (n : number) : string :=
  match n with
  | NaN => "NaN"
  | Int z => if z <? 0 then String "-" (digits (- z)) else digits z
  end.

(** [s.includes(sub)] *)
Fixpoint includes (s sub : string) : bool :=
  prefix sub s ||
  match s with
  | EmptyString => false
  | String _ r => includes r sub
  end.

(** The first [n] characters of [fill] repeated for ever ([cur] is the part
    of the current copy still to be emitted). *)
Fixpoint filler (n : nat) (fill cur : string) : string :=
  match n with
  | O => EmptyString
  | S n' =>
      match cur with
      | String c r => String c (filler n' fill r)
      | EmptyString =>
          match fill with
          | String c r => String c (filler n' fill r)
          | EmptyString => EmptyString
          end
      end
  end.

(** [s.padStart(maxLength, fillString)] *)
Definition padStart (s : string) (maxLength : nat) (fill : string) : string :=
  if (maxLength <=? String.length s)%nat then s
  else filler (maxLength - String.length s) fill fill ++ s.

End JS.

(** ** Time values and the calendar (ECMA-262, "Time Values and Time Range"
    to "MakeDate") *)

Module Time.

Definition msPerSecond : Z := 1000.
Definition msPerMinute : Z := 60000.
Definition msPerHour : Z := 3600000.
Definition msPerDay : Z := 86400000.

(** Largest magnitude of a time value: 100,000,000 days. *)
Definition maxTime : Z := 8640000000000000.

Definition Day (t : Z) : Z := t / msPerDay.
Definition TimeWithinDay (t : Z) : Z := t mod msPerDay.

Definition isLeap (y : Z) : bool :=
  ((y mod 4 =? 0) && negb (y mod 100 =? 0)) || (y mod 400 =? 0).

Definition DaysInYear (y : Z) : Z := if isLeap y then 366 else 365.

Definition DayFromYear (y : Z) : Z :=
  365 * (y - 1970) + (y - 1969) / 4 - (y - 1901) / 100 + (y - 1601) / 400.

Definition TimeFromYear (y : Z) : Z := msPerDay * DayFromYear y.

(** The year that contains day number [d]: the standard asks for the
    largest [y] with [DayFromYear y <= d].  An estimate from the mean
    length of a Gregorian year is off by at most one. *)
Definition YearFromDay (d : Z) : Z :=
  let y := 1970 + (400 * d) / 146097 in
  if d <? DayFromYear y then y - 1
  else if DayFromYear (y + 1) <=? d then y + 1
  else y.

Definition YearFromTime (t : Z) : Z := YearFromDay (Day t).

Definition InLeapYear (t : Z) : bool := isLeap (YearFromTime t).

Definition DayWithinYear (t : Z) : Z := Day t - DayFromYear (YearFromTime t).

(** Day number within the year of the first day of month [m] (0-based). *)
Definition monthStart (leap : bool) (m : Z) : Z :=
  let l := if leap then 1 else 0 in
  if m <=? 0 then 0
  else if m =? 1 then 31
  else if m =? 2 then 59 + l
  else if m =? 3 then 90 + l
  else if m =? 4 then 120 + l
  else if m =? 5 then 151 + l
  else if m =? 6 then 181 + l
  else if m =? 7 then 212 + l
  else if m =? 8 then 243 + l
  else if m =? 9 then 273 + l
  else if m =? 10 then 304 + l
  else 334 + l.

(** Number of days of month [m] (0-based). *)
Definition DaysInMonth (leap : bool) (m : Z) : Z :=
  if m =? 1 then (if leap then 29 else 28)
  else if (m =? 3) || (m =? 5) || (m =? 8) || (m =? 10) then 30
  else 31.

Definition MonthFromTime (t : Z) : Z :=
  let d := DayWithinYear t in
  let leap := InLeapYear t in
  if d <? monthStart leap 1 then 0
  else if d <? monthStart leap 2 then 1
  else if d <? monthStart leap 3 then 2
  else if d <? monthStart leap 4 then 3
  else if d <? monthStart leap 5 then 4
  else if d <? monthStart leap 6 then 5
  else if d <? monthStart leap 7 then 6
  else if d <? monthStart leap 8 then 7
  else if d <? monthStart leap 9 then 8
  else if d <? monthStart leap 10 then 9
  else if d <? monthStart leap 11 then 10
  else 11.

Definition DateFromTime (t : Z) : Z :=
  DayWithinYear t - monthStart (InLeapYear t) (MonthFromTime t) + 1.

Definition HourFromTime (t : Z) : Z := (t / msPerHour) mod 24.
Definition MinFromTime (t : Z) : Z := (t / msPerMinute) mod 60.
Definition SecFromTime (t : Z) : Z := (t / msPerSecond) mod 60.
Definition msFromTime (t : Z) : Z := t mod msPerSecond.

Definition MakeTime (hour min sec ms : Z) : Z :=
  hour * msPerHour + min * msPerMinute + sec * msPerSecond + ms.

(** [MakeDay]: the day number of the first of month [month] of year
    [year] (months beyond 0..11 carry into the year), plus [date - 1]. *)
Definition MakeDay (year month date : Z) : Z :=
  let ym := year + month / 12 in
  let mn := month mod 12 in
  DayFromYear ym + monthStart (isLeap ym) mn + date - 1.

Definition MakeDate (day time : Z) : Z := day * msPerDay + time.

Definition TimeClip (t : JS.number) : JS.number :=
  match t with
  | JS.NaN => JS.NaN
  | JS.Int z => if maxTime <? Z.abs z then JS.NaN else JS.Int z
  end.

End Time.

(** ** The [Date] builtin *)

Module Date.

(** What ECMA-262 leaves to the implementation.  [LocalTZA t isUTC] is the
    offset of the host's local time zone in milliseconds; [legacy_parse]
    is what [Date.parse] answers for a string that is not an instance of
    the standard date-time string format ("the function may fall back to
    any implementation-specific heuristics or implementation-specific date
    formats"). *)
Record Host : Type := mkHost {
  LocalTZA : Z -> bool -> Z;
  legacy_parse : string -> JS.number
}.

(** [UTC(t)]: local time to UTC. *)
Definition UTC (h : Host) (t : Z) : Z := t - LocalTZA h t false.

Notation "' p <- e ;; k" :=
  (match e with Some p => k | None => None end)
  (at level 61, p pattern, e at next level, right associativity).

Definition digit_val (c : ascii) : option Z :=
  let n := Z.of_N (N_of_ascii c) in
  if (48 <=? n) && (n <=? 57) then Some (n - 48) else None.

(** Exactly [k] decimal digits. *)
Fixpoint read_digits (k : nat) (acc : Z) (s : string) : option (Z * string) :=
  match k with
  | O => Some (acc, s)
  | S k' =>
      match s with
      | String c r =>
          ' d <- digit_val c ;; read_digits k' (10 * acc + d) r
      | EmptyString => None
      end
  end.

(** [YYYY], or the expanded year [+YYYYYY] / [-YYYYYY] ([-000000] is not
    a year). *)
Definition read_year (s : string) : option (Z * string) :=
  match s with
  | String c r =>
      if Ascii.eqb c "+" then read_digits 6 0 r
      else if Ascii.eqb c "-" then
        ' (y, r') <- read_digits 6 0 r ;;
        if y =? 0 then None else Some (- y, r')
      else read_digits 4 0 s
  | EmptyString => None
  end.

(** Optional [-MM] and, after it, optional [-DD]; both default to 1. *)
Definition read_month_day (s : string) : option (Z * Z * string) :=
  match s with
  | String c r =>
      if Ascii.eqb c "-" then
        ' (m, r1) <- read_digits 2 0 r ;;
        match r1 with
        | String c1 r2 =>
            if Ascii.eqb c1 "-" then
              ' (d, r3) <- read_digits 2 0 r2 ;; Some (m, d, r3)
            else Some (m, 1, r1)
        | EmptyString => Some (m, 1, r1)
        end
      else Some (1, 1, s)
  | EmptyString => Some (1, 1, s)
  end.

(** [HH:mm], [HH:mm:ss] or [HH:mm:ss.sss]. *)
Definition read_time (s : string) : option (Z * Z * Z * Z * string) :=
  ' (hh, r1) <- read_digits 2 0 s ;;
  match r1 with
  | String c1 r2 =>
      if Ascii.eqb c1 ":" then
        ' (mi, r3) <- read_digits 2 0 r2 ;;
        match r3 with
        | String c3 r4 =>
            if Ascii.eqb c3 ":" then
              ' (ss, r5) <- read_digits 2 0 r4 ;;
              match r5 with
              | String c5 r6 =>
                  if Ascii.eqb c5 "." then
                    ' (ms, r7) <- read_digits 3 0 r6 ;; Some (hh, mi, ss, ms, r7)
                  else Some (hh, mi, ss, 0, r5)
              | EmptyString => Some (hh, mi, ss, 0, r5)
              end
            else Some (hh, mi, 0, 0, r3)
        | EmptyString => Some (hh, mi, 0, 0, r3)
        end
      else None
  | EmptyString => None
  end.

(** The UTC offset representation that ends a date-time form: absent
    ([Some None]), [Z], or [+HH:mm] / [-HH:mm]; the value is in
    milliseconds. *)
Definition read_offset (s : string) : option (option Z) :=
  match s with
  | EmptyString => Some None
  | String c r =>
      if Ascii.eqb c "Z" then
        match r with EmptyString => Some (Some 0) | _ => None end
      else
        ' sign <- (if Ascii.eqb c "+" then Some 1
                   else if Ascii.eqb c "-" then Some (-1) else None) ;;
        ' (hh, r1) <- read_digits 2 0 r ;;
        match r1 with
        | String c1 r2 =>
            if Ascii.eqb c1 ":" then
              ' (mi, r3) <- read_digits 2 0 r2 ;;
              match r3 with
              | EmptyString =>
                  if (hh <=? 23) && (mi <=? 59)
                  then Some (Some (sign * (hh * Time.msPerHour + mi * Time.msPerMinute)))
                  else None
              | _ => None
              end
            else None
        | EmptyString => None
        end
  end.

(** Month 01 to 12, and a day that the month has.  (The standard words
    the day as "from 01 to 31"; whether the 30th of February is in the
    format is read differently by different engines, so it is left to the
    host.) *)
Definition valid_date (y m d : Z) : bool :=
  (1 <=? m) && (m <=? 12)
  && (1 <=? d) && (d <=? Time.DaysInMonth (Time.isLeap y) (m - 1)).

(** [24:00:00] is the end of the day; no other time has hour 24. *)
Definition valid_time (hh mi ss ms : Z) : bool :=
  ((hh <=? 23) && (mi <=? 59) && (ss <=? 59))
  || ((hh =? 24) && (mi =? 0) && (ss =? 0) && (ms =? 0)).

(** The date-time string format of the standard.  [None]: the string is
    not an instance of the format.  Otherwise the date and time the string
    denotes, as a time value, together with its UTC offset in milliseconds;
    a date-only form counts as offset 0 and a date-time form without offset
    has none: "When the UTC offset representation is absent, date-only
    forms are interpreted as a UTC time and date-time forms are interpreted
    as a local time." *)
Definition iso_fields (s : string) : option (Z * option Z) :=
  ' (y, r0) <- read_year s ;;
  ' (m, d, r1) <- read_month_day r0 ;;
  if negb (valid_date y m d) then None else
  let day := Time.MakeDay y (m - 1) d in
  match r1 with
  | EmptyString => Some (Time.MakeDate day 0, Some 0)
  | String c r2 =>
      if Ascii.eqb c "T" then
        ' (hh, mi, ss, ms, r3) <- read_time r2 ;;
        if negb (valid_time hh mi ss ms) then None else
        ' off <- read_offset r3 ;;
        Some (Time.MakeDate day (Time.MakeTime hh mi ss ms), off)
      else None
  end.

Definition parse_iso (h : Host) (s : string) : option Z :=
  ' (t, off) <- iso_fields s ;;
  match off with
  | Some o => Some (t - o)
  | None => Some (UTC h t)
  end.

(** [Date.parse(s)]: a time value, or [NaN]; a date and time beyond the
    time range is no time value. *)
Definition parse (h : Host) (s : string) : JS.number :=
  Time.TimeClip
    match parse_iso h s with
    | Some t => JS.Int t
    | None => legacy_parse h s
    end.

(** A Date object is its [[DateValue]] slot: a time value or [NaN]
    ("Invalid Date"). *)
Record date : Type := mkDate { DateValue : JS.number }.

(** [new Date(s)] for a string [s], [new Date(n)] for a number [n].
    Neither throws. *)
Definition of_string (h : Host) (s : string) : date :=
  mkDate (Time.TimeClip (parse h s)).

Definition of_number (n : JS.number) : date :=
  mkDate (Time.TimeClip n).

Definition field (f : Z -> Z) (d : date) : JS.number :=
  match DateValue d with
  | JS.NaN => JS.NaN
  | JS.Int t => JS.Int (f t)
  end.

Definition getTime (d : date) : JS.number := DateValue d.
Definition getUTCFullYear : date -> JS.number := field Time.YearFromTime.
Definition getUTCMonth : date -> JS.number := field Time.MonthFromTime.
Definition getUTCDate : date -> JS.number := field Time.DateFromTime.
Definition getUTCHours : date -> JS.number := field Time.HourFromTime.
Definition getUTCMinutes : date -> JS.number := field Time.MinFromTime.
Definition getUTCSeconds : date -> JS.number := field Time.SecFromTime.

End Date.

(** ** The source *)

Export Date(Host, mkHost).

(** [try { ... } catch (error) { ... }]: a block either completes with a
    value or throws. *)
Inductive completion (A : Type) : Type :=
  | Normal : A -> completion A
  | Throw : completion A.
Arguments Normal {A} _.
Arguments Throw {A}.

Definition try_catch {A : Type} (body : completion A) (handler : A) : A :=
  match body with
  | Normal v => v
  | Throw => handler
  end.

(** [export type TimezoneType = 'UTC' | 'IST'] *)
Inductive TimezoneType : Type := UTC | IST.

(** [!utcDateTime]: only the empty string is falsy. *)
Definition falsy (s : string) : bool :=
  match s with EmptyString => true | _ => false end.

(** [5.5 * 60 * 60 * 1000], exact in double precision. *)
Definition IST_OFFSET_MS : JS.number := JS.Int (11 * 60 * 60 * 1000 / 2).

(** [convertUTCToTimezone(utcDateTime, timezone = 'UTC')] of
    [timezoneUtils.ts]; a caller that leaves the zone out passes [UTC].
    Every call inside the [try] block is total on the values it gets
    ([new Date] and the getters do not throw, they answer Invalid Date and
    [NaN]), so the block always completes normally. *)
Definition convertUTCToTimezone
    (h : Host) (utcDateTime : string) (timezone : TimezoneType) : string :=
  if falsy utcDateTime || String.eqb utcDateTime "-∞" || String.eqb utcDateTime "∞"
  then utcDateTime
  else
    match timezone with
    | UTC => utcDateTime
    | _ =>
        try_catch
          (let utcDate :=
             if JS.includes utcDateTime "Z" || JS.includes utcDateTime "+" then
               Date.of_string h utcDateTime
             else if JS.includes utcDateTime "T" then
               Date.of_string h (utcDateTime ++ "Z")
             else
               Date.of_string h utcDateTime in
           let targetDate :=
             match timezone with
             | IST => Date.of_number (JS.add (Date.getTime utcDate) IST_OFFSET_MS)
             | _ => utcDate
             end in
           let year := Date.getUTCFullYear targetDate in
           let month := JS.padStart (JS.ToString (JS.add (Date.getUTCMonth targetDate) (JS.Int 1))) 2 "0" in
           let day := JS.padStart (JS.ToString (Date.getUTCDate targetDate)) 2 "0" in
           let hours := JS.padStart (JS.ToString (Date.getUTCHours targetDate)) 2 "0" in
           let minutes := JS.padStart (JS.ToString (Date.getUTCMinutes targetDate)) 2 "0" in
           let seconds := JS.padStart (JS.ToString (Date.getUTCSeconds targetDate)) 2 "0" in
           let result :=
             JS.ToString year ++ "-" ++ month ++ "-" ++ day ++ "T"
               ++ hours ++ ":" ++ minutes ++ ":" ++ seconds in
           Normal result)
          utcDateTime
    end.

(** [convertUTCToIST(utcDateTime)], the sibling with the zone fixed. *)
Definition convertUTCToIST (h : Host) (utcDateTime : string) : string :=
  if falsy utcDateTime || String.eqb utcDateTime "-∞" || String.eqb utcDateTime "∞"
  then utcDateTime
  else
    try_catch
      (let utcDate :=
         if JS.includes utcDateTime "Z" || JS.includes utcDateTime "+" then
           Date.of_string h utcDateTime
         else if JS.includes utcDateTime "T" then
           Date.of_string h (utcDateTime ++ "Z")
         else
           Date.of_string h utcDateTime in
       let istDate := Date.of_number (JS.add (Date.getTime utcDate) IST_OFFSET_MS) in
       let year := Date.getUTCFullYear istDate in
       let month := JS.padStart (JS.ToString (JS.add (Date.getUTCMonth istDate) (JS.Int 1))) 2 "0" in
       let day := JS.padStart (JS.ToString (Date.getUTCDate istDate)) 2 "0" in
       let hours := JS.padStart (JS.ToString (Date.getUTCHours istDate)) 2 "0" in
       let minutes := JS.padStart (JS.ToString (Date.getUTCMinutes istDate)) 2 "0" in
       let seconds := JS.padStart (JS.ToString (Date.getUTCSeconds istDate)) 2 "0" in
       let result :=
         JS.ToString year ++ "-" ++ month ++ "-" ++ day ++ "T"
           ++ hours ++ ":" ++ minutes ++ ":" ++ seconds in
       Normal result)
      utcDateTime.

(** Two hosts that accept nothing beyond the standard format: one whose
    local zone is UTC, one whose local zone is UTC+05:30. *)
Definition strict_utc_host : Host :=
  mkHost (fun _ _ => 0) (fun _ => JS.NaN).

Definition strict_ist_host : Host :=
  mkHost (fun _ _ => 19800000) (fun _ => JS.NaN).

(** ** Named pieces of the two function bodies, for the statements below *)

(** The guard both functions open with. *)
Definition isSentinel (s : string) : bool :=
  falsy s || String.eqb s "-∞" || String.eqb s "∞".

(** The string that reaches [new Date]: the input, or the input followed
    by [Z]. *)
Definition parseArgument (utcDateTime : string) : string :=
  if JS.includes utcDateTime "Z" || JS.includes utcDateTime "+" then utcDateTime
  else if JS.includes utcDateTime "T" then utcDateTime ++ "Z"
  else utcDateTime.

(** [new Date(d.getTime() + (5.5 * 60 * 60 * 1000))] *)
Definition shiftIST (d : Date.date) : Date.date :=
  Date.of_number (JS.add (Date.getTime d) IST_OFFSET_MS).

(** The six [getUTC...] calls and the template literal. *)
Definition formatUTCFields (d : Date.date) : string :=
  let year := Date.getUTCFullYear d in
  let month := JS.padStart (JS.ToString (JS.add (Date.getUTCMonth d) (JS.Int 1))) 2 "0" in
  let day := JS.padStart (JS.ToString (Date.getUTCDate d)) 2 "0" in
  let hours := JS.padStart (JS.ToString (Date.getUTCHours d)) 2 "0" in
  let minutes := JS.padStart (JS.ToString (Date.getUTCMinutes d)) 2 "0" in
  let seconds := JS.padStart (JS.ToString (Date.getUTCSeconds d)) 2 "0" in
  JS.ToString year ++ "-" ++ month ++ "-" ++ day ++ "T"
    ++ hours ++ ":" ++ minutes ++ ":" ++ seconds.

(** [String(n).padStart(2, '0')] for an integer [n]. *)
Definition pad2 (n : Z) : string := JS.padStart (JS.ToString (JS.Int n)) 2 "0".

(** [YYYY-MM-DDTHH:mm:ss] from the UTC calendar fields of the time value
    [t]; the year is printed as the number it is, without padding. *)
Definition renderUTC (t : Z) : string :=
  JS.ToString (JS.Int (Time.YearFromTime t)) ++ "-"
    ++ pad2 (Time.MonthFromTime t + 1) ++ "-"
    ++ pad2 (Time.DateFromTime t) ++ "T"
    ++ pad2 (Time.HourFromTime t) ++ ":"
    ++ pad2 (Time.MinFromTime t) ++ ":"
    ++ pad2 (Time.SecFromTime t).

(** What the template literal yields for an Invalid Date. *)
Definition invalidDateText : string := "NaN-NaN-NaNTNaN:NaN:NaN".

(** A standard date-time string whose reading does not involve the local
    time zone: date-only, or with a UTC offset. *)
Definition explicitZone (s : string) : bool :=
  match Date.iso_fields s with
  | Some (_, Some _) => true
  | _ => false
  end.

(** The date part of [renderUTC]. *)
Definition renderDate (t : Z) : string :=
  JS.ToString (JS.Int (Time.YearFromTime t)) ++ "-"
    ++ pad2 (Time.MonthFromTime t + 1) ++ "-"
    ++ pad2 (Time.DateFromTime t).

(** The rendering of a calendar date, month 0-based as [getUTCMonth]
    gives it. *)
Definition renderYMD (y m d : Z) : string :=
  JS.ToString (JS.Int y) ++ "-" ++ pad2 (m + 1) ++ "-" ++ pad2 d.

(** The calendar date of a time value. *)
Definition dateOf (t : Z) : Z * Z * Z :=
  (Time.YearFromTime t, Time.MonthFromTime t, Time.DateFromTime t).

(** The day after a calendar date: the next day of the month, the first
    of the next month, or the first of January of the next year. *)
Definition nextDate (ymd : Z * Z * Z) : Z * Z * Z :=
  let '(y, m, d) := ymd in
  if d <? Time.DaysInMonth (Time.isLeap y) m then (y, m, d + 1)
  else if m <? 11 then (y, m + 1, 1)
  else (y + 1, 0, 1).

(** A date that exists: month 0 to 11 and a day the month has. *)
Definition validDate (ymd : Z * Z * Z) : Prop :=
  let '(y, m, d) := ymd in
  0 <= m <= 11 /\ 1 <= d <= Time.DaysInMonth (Time.isLeap y) m.

(** The value of a string of digits, and ten to the number of its
    characters. *)
Fixpoint digitsValue (s : string) : Z * Z :=
  match s with
  | EmptyString => (0, 1)
  | String c r =>
      let '(v, p) := digitsValue r in
      (match Date.digit_val c with Some d => d | None => 0 end * p + v, 10 * p)
  end.

(** Every character of [s] is a decimal digit. *)
Fixpoint allDigits (s : string) : bool :=
  match s with
  | EmptyString => true
  | String c r =>
      match Date.digit_val c with
      | Some _ => allDigits r
      | None => false
      end
  end.

(** [p] holds no [Z]. *)
Definition noZ (p : string) : Prop := JS.includes p "Z" = false.

(** ** Decidable checks, run over whole ranges in the proofs below *)

(** The integers [lo], [lo + 1], ..., [lo + n - 1]. *)
Definition range (lo n : Z) : list Z :=
  map (fun k => lo + Z.of_nat k) (seq 0 (Z.to_nat n)).

(** [s] consists of exactly [k] digits that spell [n]. *)
Definition reads_back (k : nat) (s : string) (n : Z) : bool :=
  match Date.read_digits k 0 s with
  | Some (v, EmptyString) => v =? n
  | _ => false
  end.

(** [s] contains none of the characters the source looks for. *)
Definition plain (s : string) : bool :=
  negb (JS.includes s "Z") && negb (JS.includes s "+") && negb (JS.includes s "T").

(** What the proofs need of a two-digit field and of a four-digit year. *)
Definition pad2_ok (n : Z) : bool :=
  reads_back 2 (pad2 n) n && (String.length (pad2 n) =? 2)%nat && plain (pad2 n).

Definition year_ok (y : Z) : bool :=
  let s := JS.ToString (JS.Int y) in
  match Date.read_year s with
  | Some (v, EmptyString) => v =? y
  | _ => false
  end && (String.length s =? 4)%nat && plain s.

(** ** The calendar functions do what the standard asks of them *)

Module TimeFacts.
Import Time.

Ltac boolZ :=
  repeat match goal with
  | |- context [?a =? ?b] => destruct (Z.eqb_spec a b)
  | |- context [?a <? ?b] => destruct (Z.ltb_spec a b)
  | |- context [?a <=? ?b] => destruct (Z.leb_spec a b)
  end; cbn [andb orb negb].

Ltac eval_monthStart :=
  repeat match goal with
  | |- context [monthStart ?l Z0] =>
      let v := eval vm_compute in (monthStart l Z0) in
      change (monthStart l Z0) with v
  | |- context [monthStart ?l (Zpos ?p)] =>
      let v := eval vm_compute in (monthStart l (Zpos p)) in
      change (monthStart l (Zpos p)) with v
  end.

Lemma DayFromYear_succ (y : Z) :
  DayFromYear (y + 1) = DayFromYear y + DaysInYear y.
Proof.
  unfold DayFromYear, DaysInYear, isLeap.
  boolZ; Z.div_mod_to_equations; lia.
Qed.

Lemma YearFromDay_spec (d : Z) :
  DayFromYear (YearFromDay d) <= d < DayFromYear (YearFromDay d + 1).
Proof.
  unfold YearFromDay.
  set (y := 1970 + 400 * d / 146097).
  assert (Hlo : DayFromYear (y - 1) <= d).
  { unfold DayFromYear, y. Z.div_mod_to_equations; lia. }
  assert (Hhi : d < DayFromYear (y + 2)).
  { unfold DayFromYear, y. Z.div_mod_to_equations; lia. }
  destruct (Z.ltb_spec d (DayFromYear y)).
  - replace (y - 1 + 1) with y by lia. lia.
  - destruct (Z.leb_spec (DayFromYear (y + 1)) d).
    + replace (y + 1 + 1) with (y + 2) by lia. lia.
    + lia.
Qed.

Lemma DaysInYear_cases (y : Z) : DaysInYear y = 365 \/ DaysInYear y = 366.
Proof. unfold DaysInYear; destruct (isLeap y); auto. Qed.

Lemma DayFromYear_mono (y k : Z) : 0 <= k -> DayFromYear y + 365 * k <= DayFromYear (y + k).
Proof.
  intros Hk. pattern k. apply natlike_ind; [ | | exact Hk]; cbv beta.
  - replace (y + 0) with y by lia. lia.
  - intros x Hx IH. replace (y + Z.succ x) with (y + x + 1) by lia.
    rewrite DayFromYear_succ. pose proof (DaysInYear_cases (y + x)). lia.
Qed.

Lemma YearFromDay_largest (d y : Z) : DayFromYear y <= d -> y <= YearFromDay d.
Proof.
  intros Hy. pose proof (YearFromDay_spec d) as [_ Hhi].
  destruct (Z.le_gt_cases y (YearFromDay d)) as [|Hgt]; [assumption|exfalso].
  pose proof (DayFromYear_mono (YearFromDay d + 1) (y - (YearFromDay d + 1)) ltac:(lia)) as Hm.
  replace (YearFromDay d + 1 + (y - (YearFromDay d + 1))) with y in Hm by lia.
  lia.
Qed.

Lemma DayWithinYear_range (t : Z) :
  0 <= DayWithinYear t < DaysInYear (YearFromTime t).
Proof.
  unfold DayWithinYear, YearFromTime.
  pose proof (YearFromDay_spec (Day t)) as H.
  rewrite DayFromYear_succ in H. lia.
Qed.

Lemma MonthFromTime_range (t : Z) : 0 <= MonthFromTime t <= 11.
Proof.
  unfold MonthFromTime. cbv zeta.
  repeat match goal with
  | |- context [if ?b then _ else _] => destruct b
  end; lia.
Qed.

Lemma DateFromTime_range (t : Z) : 1 <= DateFromTime t <= 31.
Proof.
  pose proof (DayWithinYear_range t) as H.
  unfold DateFromTime, MonthFromTime, InLeapYear, DaysInYear in *.
  cbv zeta. revert H. generalize (DayWithinYear t) as d. intros d H.
  destruct (isLeap (YearFromTime t));
    eval_monthStart; boolZ; eval_monthStart; lia.
Qed.

Lemma DaysInMonth_range (leap : bool) (m : Z) : 28 <= DaysInMonth leap m <= 31.
Proof.
  unfold DaysInMonth.
  destruct leap; repeat match goal with
  | |- context [if ?b then _ else _] => destruct b
  end; lia.
Qed.

(** The day of the month is a day that month has. *)
Lemma DateFromTime_month (t : Z) :
  DateFromTime t <= DaysInMonth (InLeapYear t) (MonthFromTime t).
Proof.
  pose proof (DayWithinYear_range t) as H.
  unfold DateFromTime, MonthFromTime, InLeapYear, DaysInYear in *.
  cbv zeta. revert H. generalize (DayWithinYear t) as d. intros d H.
  destruct (isLeap (YearFromTime t));
    eval_monthStart; boolZ; eval_monthStart; cbn; lia.
Qed.

Lemma MakeDay_fields (t : Z) :
  MakeDay (YearFromTime t) (MonthFromTime t) (DateFromTime t) = Day t.
Proof.
  pose proof (MonthFromTime_range t) as Hm.
  unfold MakeDay. cbv zeta.
  rewrite Z.div_small, Z.mod_small, Z.add_0_r by lia.
  unfold DateFromTime, InLeapYear, DayWithinYear. lia.
Qed.

Lemma HourFromTime_range (t : Z) : 0 <= HourFromTime t <= 23.
Proof. unfold HourFromTime. pose proof (Z.mod_pos_bound (t / msPerHour) 24). lia. Qed.

Lemma MinFromTime_range (t : Z) : 0 <= MinFromTime t <= 59.
Proof. unfold MinFromTime. pose proof (Z.mod_pos_bound (t / msPerMinute) 60). lia. Qed.

Lemma SecFromTime_range (t : Z) : 0 <= SecFromTime t <= 59.
Proof. unfold SecFromTime. pose proof (Z.mod_pos_bound (t / msPerSecond) 60). lia. Qed.

(** The calendar fields of a time value denote that time value, to the
    second. *)
Lemma MakeDate_fields (t : Z) :
  MakeDate (MakeDay (YearFromTime t) (MonthFromTime t) (DateFromTime t))
           (MakeTime (HourFromTime t) (MinFromTime t) (SecFromTime t) 0)
  = t - t mod 1000.
Proof.
  rewrite MakeDay_fields.
  unfold MakeDate, MakeTime, Day, HourFromTime, MinFromTime, SecFromTime,
    msPerDay, msPerHour, msPerMinute, msPerSecond.
  Z.div_mod_to_equations. lia.
Qed.

(** Half an hour more changes the minute. *)
Lemma MinFromTime_shift (t : Z) :
  MinFromTime (t - t mod 1000 + 19800000) <> MinFromTime t.
Proof.
  unfold MinFromTime, msPerMinute. Z.div_mod_to_equations. lia.
Qed.

Lemma monthStart_range (leap : bool) (m : Z) : 0 <= monthStart leap m <= 335.
Proof.
  unfold monthStart. destruct leap; cbv zeta;
  repeat match goal with
  | |- context [if ?b then _ else _] => destruct b
  end; lia.
Qed.

Lemma DayFromYear_le (y1 y2 : Z) : y1 <= y2 -> DayFromYear y1 <= DayFromYear y2.
Proof.
  intros H. pose proof (DayFromYear_mono y1 (y2 - y1) ltac:(lia)) as Hm.
  replace (y1 + (y2 - y1)) with y2 in Hm by lia. lia.
Qed.

Lemma YearFromTime_bounds (t lo hi : Z) :
  lo <= YearFromTime t <= hi ->
  msPerDay * DayFromYear lo <= t < msPerDay * DayFromYear (hi + 1).
Proof.
  intros [Hlo Hhi]. unfold YearFromTime in *.
  pose proof (YearFromDay_spec (Day t)) as [H1 H2].
  apply DayFromYear_le in Hlo.
  assert (H3 : DayFromYear (YearFromDay (Day t) + 1) <= DayFromYear (hi + 1))
    by (apply DayFromYear_le; lia).
  unfold Day, msPerDay in *. Z.div_mod_to_equations. lia.
Qed.
End TimeFacts.

(** ** Strings: concatenation, search, and reading digits back *)

Module StringFacts.

Lemma append_assoc (a b c : string) : (a ++ b) ++ c = a ++ (b ++ c).
Proof. induction a as [|x a IH]; cbn; [reflexivity | now rewrite IH]. Qed.

Lemma length_append (a b : string) :
  String.length (a ++ b) = (String.length a + String.length b)%nat.
Proof. induction a as [|x a IH]; cbn; [reflexivity | now rewrite IH]. Qed.

Lemma append_inj (a a' b b' : string) :
  String.length a = String.length a' -> a ++ b = a' ++ b' -> a = a' /\ b = b'.
Proof.
  revert a'. induction a as [|x a IH]; intros [|x' a'] Hlen Heq; cbn in *;
    try discriminate.
  - auto.
  - injection Heq as -> Heq. injection Hlen as Hlen.
    destruct (IH _ Hlen Heq) as [-> ->]. auto.
Qed.

(** Two strings that end in tails of the same length and are equal have
    equal tails. *)
Lemma append_inj_tail (a a' b b' : string) :
  String.length b = String.length b' -> a ++ b = a' ++ b' -> b = b'.
Proof.
  intros Hlen Heq.
  assert (Hl : String.length (a ++ b) = String.length (a' ++ b')) by now rewrite Heq.
  rewrite !length_append in Hl.
  apply (append_inj a a' b b'); [lia | exact Heq].
Qed.

Lemma append_nil_r (s : string) : s ++ EmptyString = s.
Proof. induction s as [|c s IH]; cbn; [reflexivity | now rewrite IH]. Qed.

(** Looking for a single character distributes over concatenation. *)
Lemma includes_char_cons (c p : ascii) (r : string) :
  JS.includes (String c r) (String p EmptyString)
  = Ascii.eqb c p || JS.includes r (String p EmptyString).
Proof.
  cbn [JS.includes prefix]. 
  destruct (ascii_dec p c) as [->|Hne].
  - rewrite Ascii.eqb_refl. destruct r; reflexivity.
  - assert (Ascii.eqb c p = false) as -> by (apply Ascii.eqb_neq; congruence).
    reflexivity.
Qed.

Lemma includes_char_nil (p : ascii) :
  JS.includes EmptyString (String p EmptyString) = false.
Proof. reflexivity. Qed.

Lemma includes_char_app (a b : string) (p : ascii) :
  JS.includes (a ++ b) (String p EmptyString)
  = JS.includes a (String p EmptyString) || JS.includes b (String p EmptyString).
Proof.
  induction a as [|x a IH].
  - reflexivity.
  - change (String x a ++ b) with (String x (a ++ b)).
    rewrite !includes_char_cons, IH, orb_assoc. reflexivity.
Qed.

Lemma range_forallb (P : Z -> bool) (lo n : Z) :
  forallb P (range lo n) = true ->
  forall z, lo <= z < lo + n -> P z = true.
Proof.
  intros H z Hz. rewrite forallb_forall in H. apply H.
  unfold range. apply in_map_iff. exists (Z.to_nat (z - lo)). split.
  - lia.
  - apply in_seq. lia.
Qed.


(** *** Two-digit fields and four-digit years, checked exhaustively *)

Lemma pad2_ok_all (n : Z) : 0 <= n <= 99 -> pad2_ok n = true.
Proof.
  intros H. apply (range_forallb pad2_ok 0 100); [vm_compute; reflexivity | lia].
Qed.

Lemma year_ok_all (y : Z) : 1000 <= y <= 9999 -> year_ok y = true.
Proof.
  intros H. apply (range_forallb year_ok 1000 9000); [vm_compute; reflexivity | lia].
Qed.

Lemma reads_back_spec (k : nat) (s : string) (n : Z) :
  reads_back k s n = true -> Date.read_digits k 0 s = Some (n, EmptyString).
Proof.
  unfold reads_back. destruct (Date.read_digits k 0 s) as [[v [|c r]]|]; try discriminate.
  intros H. apply Z.eqb_eq in H. now subst.
Qed.

Lemma plain_spec (s : string) :
  plain s = true ->
  JS.includes s "Z" = false /\ JS.includes s "+" = false /\ JS.includes s "T" = false.
Proof.
  unfold plain. intros H. apply andb_prop in H as [H H3]. apply andb_prop in H as [H1 H2].
  repeat split; now apply negb_true_iff.
Qed.

Lemma pad2_read (n : Z) :
  0 <= n <= 99 -> Date.read_digits 2 0 (pad2 n) = Some (n, EmptyString).
Proof.
  intros H. pose proof (pad2_ok_all n H) as Hok. unfold pad2_ok in Hok.
  apply andb_prop in Hok as [Hok _]. apply andb_prop in Hok as [Hok _].
  now apply reads_back_spec.
Qed.

Lemma pad2_length (n : Z) : 0 <= n <= 99 -> String.length (pad2 n) = 2%nat.
Proof.
  intros H. pose proof (pad2_ok_all n H) as Hok. unfold pad2_ok in Hok.
  apply andb_prop in Hok as [Hok _]. apply andb_prop in Hok as [_ Hok].
  now apply Nat.eqb_eq.
Qed.

Lemma pad2_plain (n : Z) : 0 <= n <= 99 -> plain (pad2 n) = true.
Proof.
  intros H. pose proof (pad2_ok_all n H) as Hok. unfold pad2_ok in Hok.
  now apply andb_prop in Hok as [_ Hok].
Qed.

Lemma pad2_inj (n m : Z) : 0 <= n <= 99 -> 0 <= m <= 99 -> pad2 n = pad2 m -> n = m.
Proof.
  intros Hn Hm Heq. pose proof (pad2_read n Hn) as H1. pose proof (pad2_read m Hm) as H2.
  rewrite Heq in H1. congruence.
Qed.

Lemma year_read (y : Z) :
  1000 <= y <= 9999 -> Date.read_year (JS.ToString (JS.Int y)) = Some (y, EmptyString).
Proof.
  intros H. pose proof (year_ok_all y H) as Hok. unfold year_ok in Hok. cbv zeta in Hok.
  apply andb_prop in Hok as [Hok _]. apply andb_prop in Hok as [Hok _].
  destruct (Date.read_year (JS.ToString (JS.Int y))) as [[v [|c r]]|]; try discriminate.
  apply Z.eqb_eq in Hok. now subst.
Qed.

Lemma year_length (y : Z) :
  1000 <= y <= 9999 -> String.length (JS.ToString (JS.Int y)) = 4%nat.
Proof.
  intros H. pose proof (year_ok_all y H) as Hok. unfold year_ok in Hok. cbv zeta in Hok.
  apply andb_prop in Hok as [Hok _]. apply andb_prop in Hok as [_ Hok].
  now apply Nat.eqb_eq.
Qed.

Lemma year_plain (y : Z) : 1000 <= y <= 9999 -> plain (JS.ToString (JS.Int y)) = true.
Proof.
  intros H. pose proof (year_ok_all y H) as Hok. unfold year_ok in Hok. cbv zeta in Hok.
  now apply andb_prop in Hok as [_ Hok].
Qed.

(** *** Reading a number off the front of a longer string *)

Lemma read_digits_app (k : nat) (acc : Z) (s r : string) (v : Z) :
  Date.read_digits k acc s = Some (v, EmptyString) ->
  Date.read_digits k acc (s ++ r) = Some (v, r).
Proof.
  revert acc s. induction k as [|k IH]; intros acc s H; cbn in *.
  - injection H as -> ->. reflexivity.
  - destruct s as [|c s]; [discriminate|]. cbn.
    destruct (Date.digit_val c) as [d|]; [|discriminate]. now apply IH.
Qed.

Lemma read_year_app (s r : string) (v : Z) :
  Date.read_year s = Some (v, EmptyString) ->
  Date.read_year (s ++ r) = Some (v, r).
Proof.
  destruct s as [|c s]; [discriminate|]. unfold Date.read_year.
  change (String c s ++ r) with (String c (s ++ r)). cbv beta iota.
  destruct (Ascii.eqb c "+").
  - apply read_digits_app.
  - destruct (Ascii.eqb c "-").
    + destruct (Date.read_digits 6 0 s) as [[y r']|] eqn:E; [|discriminate].
      destruct (y =? 0) eqn:Ey; [discriminate|]. intros H. injection H as <- ->.
      rewrite (read_digits_app _ _ _ r _ E), Ey. reflexivity.
    + intros H. change (String c (s ++ r)) with (String c s ++ r).
      now apply read_digits_app.
Qed.

Lemma pad2_read_app (n : Z) (r : string) :
  0 <= n <= 99 -> Date.read_digits 2 0 (pad2 n ++ r) = Some (n, r).
Proof. intros H. apply read_digits_app, pad2_read, H. Qed.

End StringFacts.

(** ** The conversion functions: parsing back what they print *)

Module ConvertFacts.
Import Time TimeFacts StringFacts.

Lemma valid_date_fields (t : Z) :
  Date.valid_date (YearFromTime t) (MonthFromTime t + 1) (DateFromTime t) = true.
Proof.
  pose proof (MonthFromTime_range t). pose proof (DateFromTime_range t).
  pose proof (DateFromTime_month t) as Hd. unfold InLeapYear in Hd.
  unfold Date.valid_date. rewrite !andb_true_iff, !Z.leb_le.
  replace (MonthFromTime t + 1 - 1) with (MonthFromTime t) by lia. lia.
Qed.

Lemma valid_time_fields (t : Z) :
  Date.valid_time (HourFromTime t) (MinFromTime t) (SecFromTime t) 0 = true.
Proof.
  pose proof (HourFromTime_range t). pose proof (MinFromTime_range t).
  pose proof (SecFromTime_range t).
  unfold Date.valid_time. rewrite orb_true_iff, !andb_true_iff, !Z.leb_le. lia.
Qed.

Lemma read_month_day_render (m d : Z) (r : string) :
  0 <= m <= 99 -> 0 <= d <= 99 ->
  Date.read_month_day ("-" ++ pad2 m ++ "-" ++ pad2 d ++ r) = Some (m, d, r).
Proof.
  intros Hm Hd. unfold Date.read_month_day. cbn [append]. rewrite Ascii.eqb_refl.
  rewrite pad2_read_app by assumption. cbv beta iota. rewrite Ascii.eqb_refl.
  rewrite pad2_read_app by assumption. reflexivity.
Qed.

Lemma read_time_render (hh mi ss : Z) :
  0 <= hh <= 99 -> 0 <= mi <= 99 -> 0 <= ss <= 99 ->
  Date.read_time (pad2 hh ++ ":" ++ pad2 mi ++ ":" ++ pad2 ss ++ "Z")
  = Some (hh, mi, ss, 0, "Z").
Proof.
  intros Hh Hm Hs. unfold Date.read_time.
  rewrite pad2_read_app by assumption. cbn [append]. cbv beta iota. rewrite Ascii.eqb_refl.
  rewrite pad2_read_app by assumption. cbv beta iota. rewrite Ascii.eqb_refl.
  rewrite pad2_read_app by assumption. reflexivity.
Qed.

(** [Date.parse] reads a rendered time value back, to the second, as long
    as the year has four digits. *)
Lemma iso_fields_render (t : Z) :
  1000 <= YearFromTime t <= 9999 ->
  Date.iso_fields (renderUTC t ++ "Z") = Some (t - t mod 1000, Some 0).
Proof.
  intros Hy.
  pose proof (MonthFromTime_range t). pose proof (DateFromTime_range t).
  pose proof (HourFromTime_range t). pose proof (MinFromTime_range t).
  pose proof (SecFromTime_range t).
  unfold renderUTC. rewrite !append_assoc. unfold Date.iso_fields.
  rewrite (read_year_app _ _ _ (year_read _ Hy)). cbv beta iota.
  rewrite read_month_day_render by lia. cbv beta iota.
  rewrite valid_date_fields. cbn [negb].
  match goal with
  | |- context ["T" ++ ?x] => change ("T" ++ x) with (String "T" x)
  end.
  cbv beta iota. rewrite Ascii.eqb_refl.
  rewrite read_time_render by lia. cbv beta iota.
  rewrite valid_time_fields. cbn [negb]. cbv beta iota.
  change (Date.read_offset "Z") with (Some (Some 0)). cbv beta iota.
  replace (MonthFromTime t + 1 - 1) with (MonthFromTime t) by lia.
  rewrite MakeDate_fields. reflexivity.
Qed.


(** *** The two bodies, in terms of their named pieces *)

Lemma formatUTCFields_valid (t : Z) :
  formatUTCFields (Date.mkDate (JS.Int t)) = renderUTC t.
Proof. reflexivity. Qed.

Lemma formatUTCFields_invalid :
  formatUTCFields (Date.mkDate JS.NaN) = invalidDateText.
Proof. reflexivity. Qed.

Lemma convertUTCToTimezone_IST (h : Host) (x : string) :
  isSentinel x = false ->
  convertUTCToTimezone h x IST
  = formatUTCFields (shiftIST (Date.of_string h (parseArgument x))).
Proof.
  intros Hs. unfold convertUTCToTimezone. fold (isSentinel x). rewrite Hs.
  unfold parseArgument, try_catch. cbv zeta.
  destruct (JS.includes x "Z" || JS.includes x "+"); [reflexivity|].
  destruct (JS.includes x "T"); reflexivity.
Qed.

Lemma convertUTCToIST_body (h : Host) (x : string) :
  isSentinel x = false ->
  convertUTCToIST h x
  = formatUTCFields (shiftIST (Date.of_string h (parseArgument x))).
Proof.
  intros Hs. unfold convertUTCToIST. fold (isSentinel x). rewrite Hs.
  unfold parseArgument, try_catch. cbv zeta.
  destruct (JS.includes x "Z" || JS.includes x "+"); [reflexivity|].
  destruct (JS.includes x "T"); reflexivity.
Qed.

(** The shifted date of a valid instant that stays within the time range. *)
Lemma shiftIST_valid (d : Date.date) (t : Z) :
  Date.DateValue d = JS.Int t ->
  Z.abs (t + 19800000) <= maxTime ->
  shiftIST d = Date.mkDate (JS.Int (t + 19800000)).
Proof.
  intros Hd Hb. unfold shiftIST, Date.getTime, Date.of_number. rewrite Hd.
  change (JS.add (JS.Int t) IST_OFFSET_MS) with (JS.Int (t + 19800000)).
  unfold TimeClip. destruct (Z.ltb_spec maxTime (Z.abs (t + 19800000))); [lia|reflexivity].
Qed.

Lemma shiftIST_overflow (d : Date.date) (t : Z) :
  Date.DateValue d = JS.Int t ->
  maxTime < Z.abs (t + 19800000) ->
  shiftIST d = Date.mkDate JS.NaN.
Proof.
  intros Hd Hb. unfold shiftIST, Date.getTime, Date.of_number. rewrite Hd.
  change (JS.add (JS.Int t) IST_OFFSET_MS) with (JS.Int (t + 19800000)).
  unfold TimeClip. destruct (Z.ltb_spec maxTime (Z.abs (t + 19800000))); [reflexivity|lia].
Qed.

Lemma shiftIST_invalid (d : Date.date) :
  Date.DateValue d = JS.NaN -> shiftIST d = Date.mkDate JS.NaN.
Proof.
  intros Hd. unfold shiftIST, Date.getTime, Date.of_number. rewrite Hd. reflexivity.
Qed.

(** A Date built from a string holds a time value within the range. *)
Lemma of_string_range (h : Host) (s : string) (t : Z) :
  Date.DateValue (Date.of_string h s) = JS.Int t -> Z.abs t <= maxTime.
Proof.
  unfold Date.of_string, Date.DateValue, TimeClip.
  destruct (Date.parse h s) as [|z]; [discriminate|].
  destruct (Z.ltb_spec maxTime (Z.abs z)) as [|Hle]; [discriminate|].
  intros E. injection E as <-. exact Hle.
Qed.

(** *** Shape of a rendered time value *)

Lemma isSentinel_length (s : string) :
  isSentinel s = true ->
  String.length s = 0%nat \/ String.length s = 4%nat \/ String.length s = 3%nat.
Proof.
  unfold isSentinel. rewrite !orb_true_iff. intros [[E|E]|E].
  - destruct s; [auto|discriminate].
  - apply String.eqb_eq in E. subst. auto.
  - apply String.eqb_eq in E. subst. auto.
Qed.

Section Rendered.

Variable t : Z.
Hypothesis four_digits : 1000 <= YearFromTime t <= 9999.

Lemma renderUTC_length : String.length (renderUTC t) = 19%nat.
Proof.
  pose proof (MonthFromTime_range t). pose proof (DateFromTime_range t).
  pose proof (HourFromTime_range t). pose proof (MinFromTime_range t).
  pose proof (SecFromTime_range t).
  unfold renderUTC. rewrite !length_append, year_length by assumption.
  rewrite !pad2_length by lia. reflexivity.
Qed.

Lemma renderUTC_not_sentinel : isSentinel (renderUTC t) = false.
Proof.
  destruct (isSentinel (renderUTC t)) eqn:E; [|reflexivity].
  apply isSentinel_length in E. rewrite renderUTC_length in E. lia.
Qed.

Lemma renderUTC_parseArgument : parseArgument (renderUTC t) = renderUTC t ++ "Z".
Proof.
  pose proof (MonthFromTime_range t). pose proof (DateFromTime_range t).
  pose proof (HourFromTime_range t). pose proof (MinFromTime_range t).
  pose proof (SecFromTime_range t).
  destruct (plain_spec _ (year_plain _ four_digits)) as (Y1 & Y2 & Y3).
  destruct (plain_spec _ (pad2_plain (MonthFromTime t + 1) ltac:(lia))) as (M1 & M2 & M3).
  destruct (plain_spec _ (pad2_plain (DateFromTime t) ltac:(lia))) as (D1 & D2 & D3).
  destruct (plain_spec _ (pad2_plain (HourFromTime t) ltac:(lia))) as (H1' & H2' & H3').
  destruct (plain_spec _ (pad2_plain (MinFromTime t) ltac:(lia))) as (I1 & I2 & I3).
  destruct (plain_spec _ (pad2_plain (SecFromTime t) ltac:(lia))) as (S1 & S2 & S3).
  unfold parseArgument.
  assert (HZ : JS.includes (renderUTC t) "Z" = false).
  { unfold renderUTC. rewrite !includes_char_app, Y1, M1, D1, H1', I1, S1. reflexivity. }
  assert (HP : JS.includes (renderUTC t) "+" = false).
  { unfold renderUTC. rewrite !includes_char_app, Y2, M2, D2, H2', I2, S2. reflexivity. }
  assert (HT : JS.includes (renderUTC t) "T" = true).
  { unfold renderUTC. rewrite !includes_char_app, Y3, M3, D3, H3', I3, S3. reflexivity. }
  rewrite HZ, HP, HT. reflexivity.
Qed.

End Rendered.

(** Equal renderings have equal minute fields. *)
Lemma renderUTC_minutes (a b : Z) :
  renderUTC a = renderUTC b -> MinFromTime a = MinFromTime b.
Proof.
  pose proof (MinFromTime_range a). pose proof (MinFromTime_range b).
  pose proof (SecFromTime_range a). pose proof (SecFromTime_range b).
  assert (Hsplit : forall t, renderUTC t =
    (JS.ToString (JS.Int (YearFromTime t)) ++ "-" ++ pad2 (MonthFromTime t + 1) ++ "-"
       ++ pad2 (DateFromTime t) ++ "T" ++ pad2 (HourFromTime t) ++ ":")
    ++ (pad2 (MinFromTime t) ++ ":" ++ pad2 (SecFromTime t))).
  { intros t. unfold renderUTC. rewrite !append_assoc. reflexivity. }
  rewrite (Hsplit a), (Hsplit b). intros Heq.
  apply append_inj_tail in Heq.
  - apply append_inj in Heq; [|rewrite !pad2_length by lia; reflexivity].
    apply pad2_inj; [lia | lia | apply Heq].
  - rewrite !length_append, !pad2_length by lia. reflexivity.
Qed.

Lemma convertUTCToTimezone_sentinel (h : Host) (x : string) (zone : TimezoneType) :
  isSentinel x = true -> convertUTCToTimezone h x zone = x.
Proof.
  intros Hs. unfold convertUTCToTimezone. fold (isSentinel x). rewrite Hs. reflexivity.
Qed.

Lemma explicitZone_parse (h1 h2 : Host) (s : string) :
  explicitZone s = true -> Date.parse h1 s = Date.parse h2 s.
Proof.
  unfold explicitZone, Date.parse, Date.parse_iso.
  destruct (Date.iso_fields s) as [[t [o|]]|]; try discriminate. reflexivity.
Qed.

(** Four-digit years lie well inside the time range. *)
Lemma four_digit_year_range (t : Z) :
  1000 <= YearFromTime t <= 9999 ->
  - 30610224000000 <= t < 253402300800000.
Proof.
  intros Hy. apply YearFromTime_bounds in Hy.
  change (msPerDay * DayFromYear 1000) with (- 30610224000000) in Hy.
  change (msPerDay * DayFromYear (9999 + 1)) with 253402300800000 in Hy.
  exact Hy.
Qed.

(** *** What the parser consumes is a prefix of its input *)

Lemma read_digits_suffix (k : nat) (acc : Z) (s r : string) (v : Z) :
  Date.read_digits k acc s = Some (v, r) -> exists p, s = p ++ r.
Proof.
  revert acc s. induction k as [|k IH]; intros acc s E; cbn in E.
  - injection E as _ <-. now exists EmptyString.
  - destruct s as [|c s]; [discriminate|].
    destruct (Date.digit_val c); [|discriminate].
    destruct (IH _ _ E) as [p ->]. now exists (String c p).
Qed.

Lemma read_year_suffix (s r : string) (y : Z) :
  Date.read_year s = Some (y, r) -> exists p, s = p ++ r.
Proof.
  destruct s as [|c s]; [discriminate|]. unfold Date.read_year.
  destruct (Ascii.eqb c "+").
  - intros E. destruct (read_digits_suffix _ _ _ _ _ E) as [p ->]. now exists (String c p).
  - destruct (Ascii.eqb c "-").
    + destruct (Date.read_digits 6 0 s) as [[v r']|] eqn:E; [|discriminate].
      destruct (v =? 0); [discriminate|]. intros E'. injection E' as _ <-.
      destruct (read_digits_suffix _ _ _ _ _ E) as [p ->]. now exists (String c p).
    + apply read_digits_suffix.
Qed.

Lemma read_month_day_suffix (s r : string) (m d : Z) :
  Date.read_month_day s = Some (m, d, r) -> exists p, s = p ++ r.
Proof.
  unfold Date.read_month_day. destruct s as [|c s].
  - intros E. injection E as _ _ <-. now exists EmptyString.
  - destruct (Ascii.eqb c "-").
    + destruct (Date.read_digits 2 0 s) as [[m' r1]|] eqn:E1; [|discriminate].
      destruct (read_digits_suffix _ _ _ _ _ E1) as [p1 ->].
      destruct r1 as [|c1 r2].
      * intros E. injection E as _ _ <-. now exists (String c p1).
      * destruct (Ascii.eqb c1 "-").
        -- destruct (Date.read_digits 2 0 r2) as [[d' r3]|] eqn:E2; [|discriminate].
           destruct (read_digits_suffix _ _ _ _ _ E2) as [p2 ->].
           intros E. injection E as _ _ <-.
           exists (String c (p1 ++ String c1 p2)). cbn. f_equal.
           rewrite append_assoc. reflexivity.
        -- intros E. injection E as _ _ <-. now exists (String c p1).
    + intros E. injection E as _ _ <-. now exists EmptyString.
Qed.

(** A standard date-time string without a [T] is a date-only form: it
    denotes midnight UTC of its day, whatever the host. *)
Lemma iso_without_T (s : string) (t : Z) (o : option Z) :
  Date.iso_fields s = Some (t, o) ->
  JS.includes s "T" = false ->
  o = Some 0 /\ exists day, t = MakeDate day 0.
Proof.
  unfold Date.iso_fields. intros E HT.
  destruct (Date.read_year s) as [[y r0]|] eqn:Ey; [|discriminate].
  destruct (Date.read_month_day r0) as [[[m d] r1]|] eqn:Em; [|discriminate].
  destruct (Date.valid_date y m d); [|discriminate]. cbn [negb] in E.
  destruct r1 as [|c r2].
  - injection E as <- <-. split; [reflexivity|]. now eexists.
  - exfalso. destruct (Ascii.eqb_spec c "T") as [->|]; [|discriminate].
    destruct (read_year_suffix _ _ _ Ey) as [p0 ->].
    destruct (read_month_day_suffix _ _ _ _ Em) as [p1 ->].
    rewrite !includes_char_app, includes_char_cons in HT.
    rewrite Ascii.eqb_refl, !orb_true_r in HT. discriminate.
Qed.

End ConvertFacts.

Import Time TimeFacts StringFacts ConvertFacts.

(** ** Printed integers *)

Module DigitFacts.

Lemma digit_char_val (d : Z) : 0 <= d <= 9 -> Date.digit_val (JS.digit_char d) = Some d.
Proof.
  intros H.
  assert (d = 0 \/ d = 1 \/ d = 2 \/ d = 3 \/ d = 4 \/ d = 5 \/ d = 6 \/ d = 7
          \/ d = 8 \/ d = 9) as Hd by lia.
  repeat (destruct Hd as [->|Hd]; [reflexivity|]). subst. reflexivity.
Qed.

(** A character that is no digit differs from every digit. *)
Lemma digit_char_neq (d : Z) (p : ascii) :
  0 <= d <= 9 -> Date.digit_val p = None -> Ascii.eqb (JS.digit_char d) p = false.
Proof.
  intros Hd Hp. apply Ascii.eqb_neq. intros E. rewrite <- E in Hp.
  rewrite digit_char_val in Hp by assumption. discriminate.
Qed.

Lemma digits_fuel_includes (f : nat) (n : Z) (acc : string) (p : ascii) :
  Date.digit_val p = None ->
  JS.includes (JS.digits_fuel f n acc) (String p EmptyString)
  = JS.includes acc (String p EmptyString).
Proof.
  intros Hp. revert n acc. induction f as [|f IH]; intros n acc; cbn [JS.digits_fuel].
  - reflexivity.
  - assert (Hc : JS.includes (String (JS.digit_char (n mod 10)) acc) (String p EmptyString)
                 = JS.includes acc (String p EmptyString)).
    { rewrite includes_char_cons, digit_char_neq; [reflexivity| |assumption].
      pose proof (Z.mod_pos_bound n 10). lia. }
    destruct (n <? 10); [exact Hc|]. rewrite IH. exact Hc.
Qed.

Lemma digits_fuel_length (f : nat) (n : Z) (acc : string) :
  (String.length acc <= String.length (JS.digits_fuel f n acc))%nat.
Proof.
  revert n acc. induction f as [|f IH]; intros n acc; cbn [JS.digits_fuel].
  - lia.
  - destruct (n <? 10).
    + cbn. lia.
    + etransitivity; [|apply IH]. cbn. lia.
Qed.

(** A printed integer contains only digits and, in front, a minus sign. *)
Lemma ToString_includes (z : Z) (p : ascii) :
  Date.digit_val p = None -> Ascii.eqb "-" p = false ->
  JS.includes (JS.ToString (JS.Int z)) (String p EmptyString) = false.
Proof.
  intros Hp Hm. unfold JS.ToString, JS.digits. destruct (z <? 0).
  - rewrite includes_char_cons, Hm, digits_fuel_includes by assumption. reflexivity.
  - rewrite digits_fuel_includes by assumption. reflexivity.
Qed.

Lemma ToString_length (z : Z) : (1 <= String.length (JS.ToString (JS.Int z)))%nat.
Proof.
  unfold JS.ToString, JS.digits. destruct (z <? 0).
  - cbn. lia.
  - cbn [JS.digits_fuel]. destruct (z <? 10).
    + cbn. lia.
    + etransitivity; [|apply digits_fuel_length]. cbn. lia.
Qed.

End DigitFacts.

(** ** The rendering of an arbitrary time value *)

Module RenderFacts.
Import DigitFacts.

Lemma pad2_digits (n : Z) :
  0 <= n <= 99 ->
  pad2 n = String (JS.digit_char (n / 10)) (String (JS.digit_char (n mod 10)) EmptyString).
Proof.
  intros H. apply String.eqb_eq.
  apply (range_forallb
           (fun k => String.eqb (pad2 k)
              (String (JS.digit_char (k / 10)) (String (JS.digit_char (k mod 10)) EmptyString)))
           0 100); [vm_compute; reflexivity | lia].
Qed.

Lemma pad2_includes (n : Z) (p : ascii) :
  0 <= n <= 99 -> Date.digit_val p = None ->
  JS.includes (pad2 n) (String p EmptyString) = false.
Proof.
  intros Hn Hp. rewrite pad2_digits by assumption.
  rewrite !includes_char_cons, !digit_char_neq; try assumption.
  - reflexivity.
  - pose proof (Z.mod_pos_bound n 10). lia.
  - Z.div_mod_to_equations. lia.
Qed.

(** The rendering of any time value holds digits, dashes, colons and one
    [T]. *)
Lemma renderUTC_includes (t : Z) (p : ascii) :
  Date.digit_val p = None ->
  Ascii.eqb "-" p = false -> Ascii.eqb ":" p = false ->
  JS.includes (renderUTC t) (String p EmptyString) = Ascii.eqb "T" p.
Proof.
  intros Hp Hm Hc.
  pose proof (MonthFromTime_range t). pose proof (DateFromTime_range t).
  pose proof (HourFromTime_range t). pose proof (MinFromTime_range t).
  pose proof (SecFromTime_range t).
  unfold renderUTC. rewrite !includes_char_app.
  rewrite ToString_includes by assumption. rewrite !pad2_includes by (assumption || lia).
  rewrite !includes_char_cons, Hm, Hc. cbn [JS.includes prefix orb].
  destruct (Ascii.eqb "T" p); reflexivity.
Qed.

Lemma renderUTC_length_year (t : Z) :
  String.length (renderUTC t)
  = (String.length (JS.ToString (JS.Int (YearFromTime t))) + 15)%nat.
Proof.
  pose proof (MonthFromTime_range t). pose proof (DateFromTime_range t).
  pose proof (HourFromTime_range t). pose proof (MinFromTime_range t).
  pose proof (SecFromTime_range t).
  unfold renderUTC. rewrite !length_append, !pad2_length by lia. cbn. lia.
Qed.

Lemma renderUTC_never_sentinel (t : Z) : isSentinel (renderUTC t) = false.
Proof.
  destruct (isSentinel (renderUTC t)) eqn:E; [|reflexivity].
  apply isSentinel_length in E. rewrite renderUTC_length_year in E.
  pose proof (ToString_length (YearFromTime t)). lia.
Qed.

Lemma renderUTC_not_invalid (t : Z) : renderUTC t <> invalidDateText.
Proof.
  intros E.
  assert (H : JS.includes (renderUTC t) "N" = false)
    by (rewrite renderUTC_includes; reflexivity).
  rewrite E in H. discriminate.
Qed.

Lemma renderUTC_appends_Z (t : Z) : parseArgument (renderUTC t) = renderUTC t ++ "Z".
Proof.
  unfold parseArgument.
  rewrite !renderUTC_includes by reflexivity. reflexivity.
Qed.

(** What [formatUTCFields] can return. *)
Lemma formatUTCFields_cases (d : Date.date) :
  formatUTCFields d = invalidDateText \/ exists t, formatUTCFields d = renderUTC t.
Proof.
  destruct d as [[|t]]; [left | right; exists t]; reflexivity.
Qed.

End RenderFacts.

(** ** The parser, beyond the strings the functions print *)

Module ParseFacts.

(** *** The parser on a string with something appended *)

Lemma read_digits_append (k : nat) (acc : Z) (s r w : string) (v : Z) :
  Date.read_digits k acc s = Some (v, r) ->
  Date.read_digits k acc (s ++ w) = Some (v, r ++ w).
Proof.
  revert acc s. induction k as [|k IH]; intros acc s E; cbn in *.
  - injection E as <- <-. reflexivity.
  - destruct s as [|c s]; [discriminate|]. cbn.
    destruct (Date.digit_val c); [|discriminate]. now apply IH.
Qed.

Lemma read_year_append (s r w : string) (y : Z) :
  Date.read_year s = Some (y, r) ->
  Date.read_year (s ++ w) = Some (y, r ++ w).
Proof.
  destruct s as [|c s]; [discriminate|]. unfold Date.read_year.
  change (String c s ++ w) with (String c (s ++ w)). cbv beta iota.
  destruct (Ascii.eqb c "+").
  - apply read_digits_append.
  - destruct (Ascii.eqb c "-").
    + destruct (Date.read_digits 6 0 s) as [[v r']|] eqn:E; [|discriminate].
      rewrite (read_digits_append _ _ _ _ w _ E).
      destruct (v =? 0); [discriminate|]. intros E'. injection E' as <- <-. reflexivity.
    + intros E. change (String c (s ++ w)) with (String c s ++ w).
      now apply read_digits_append.
Qed.

Lemma read_month_day_Z (s r : string) (m d : Z) :
  Date.read_month_day s = Some (m, d, r) ->
  Date.read_month_day (s ++ "Z") = Some (m, d, r ++ "Z").
Proof.
  unfold Date.read_month_day. destruct s as [|c s].
  - intros E. injection E as <- <- <-. reflexivity.
  - change (String c s ++ "Z") with (String c (s ++ "Z")). cbv beta iota.
    destruct (Ascii.eqb c "-").
    + destruct (Date.read_digits 2 0 s) as [[m' r1]|] eqn:E1; [|discriminate].
      rewrite (read_digits_append _ _ _ _ "Z" _ E1).
      destruct r1 as [|c1 r2].
      * intros E. injection E as <- <- <-. reflexivity.
      * change (String c1 r2 ++ "Z") with (String c1 (r2 ++ "Z")). cbv beta iota.
        destruct (Ascii.eqb c1 "-").
        -- destruct (Date.read_digits 2 0 r2) as [[d' r3]|] eqn:E2; [|discriminate].
           rewrite (read_digits_append _ _ _ _ "Z" _ E2).
           intros E. injection E as <- <- <-. reflexivity.
        -- intros E. injection E as <- <- <-. reflexivity.
    + intros E. injection E as <- <- <-. reflexivity.
Qed.

Lemma read_time_Z (s r : string) (hh mi ss ms : Z) :
  Date.read_time s = Some (hh, mi, ss, ms, r) ->
  Date.read_time (s ++ "Z") = Some (hh, mi, ss, ms, r ++ "Z").
Proof.
  unfold Date.read_time.
  destruct (Date.read_digits 2 0 s) as [[h' r1]|] eqn:E1; [|discriminate].
  rewrite (read_digits_append _ _ _ _ "Z" _ E1).
  destruct r1 as [|c1 r2]; [discriminate|].
  change (String c1 r2 ++ "Z") with (String c1 (r2 ++ "Z")). cbv beta iota.
  destruct (Ascii.eqb c1 ":"); [|discriminate].
  destruct (Date.read_digits 2 0 r2) as [[m' r3]|] eqn:E2; [|discriminate].
  rewrite (read_digits_append _ _ _ _ "Z" _ E2).
  destruct r3 as [|c3 r4].
  - intros E. injection E as <- <- <- <- <-. reflexivity.
  - change (String c3 r4 ++ "Z") with (String c3 (r4 ++ "Z")). cbv beta iota.
    destruct (Ascii.eqb c3 ":").
    + destruct (Date.read_digits 2 0 r4) as [[s' r5]|] eqn:E3; [|discriminate].
      rewrite (read_digits_append _ _ _ _ "Z" _ E3).
      destruct r5 as [|c5 r6].
      * intros E. injection E as <- <- <- <- <-. reflexivity.
      * change (String c5 r6 ++ "Z") with (String c5 (r6 ++ "Z")). cbv beta iota.
        destruct (Ascii.eqb c5 ".").
        -- destruct (Date.read_digits 3 0 r6) as [[ms' r7]|] eqn:E4; [|discriminate].
           rewrite (read_digits_append _ _ _ _ "Z" _ E4).
           intros E. injection E as <- <- <- <- <-. reflexivity.
        -- intros E. injection E as <- <- <- <- <-. reflexivity.
    + intros E. injection E as <- <- <- <- <-. reflexivity.
Qed.

(** An offset that is present leaves no room for another [Z]. *)
Lemma read_offset_Z (s : string) (o : option Z) :
  Date.read_offset s = Some o ->
  Date.read_offset (s ++ "Z") = match o with None => Some (Some 0) | Some _ => None end.
Proof.
  unfold Date.read_offset. destruct s as [|c r].
  - intros E. injection E as <-. reflexivity.
  - change (String c r ++ "Z") with (String c (r ++ "Z")). cbv beta iota.
    destruct (Ascii.eqb c "Z").
    + destruct r; [|discriminate]. intros E. injection E as <-. reflexivity.
    + destruct (if Ascii.eqb c "+" then Some 1
                else if Ascii.eqb c "-" then Some (-1) else None) as [sign|];
        [|discriminate].
      destruct (Date.read_digits 2 0 r) as [[hh r1]|] eqn:E1; [|discriminate].
      rewrite (read_digits_append _ _ _ _ "Z" _ E1).
      destruct r1 as [|c1 r2]; [discriminate|].
      change (String c1 r2 ++ "Z") with (String c1 (r2 ++ "Z")). cbv beta iota.
      destruct (Ascii.eqb c1 ":"); [|discriminate].
      destruct (Date.read_digits 2 0 r2) as [[mi r3]|] eqn:E2; [|discriminate].
      rewrite (read_digits_append _ _ _ _ "Z" _ E2).
      destruct r3; [|discriminate].
      destruct ((hh <=? 23) && (mi <=? 59)); [|discriminate].
      intros E. injection E as <-. reflexivity.
Qed.

(** Appending [Z] to a standard date-time string without offset gives the
    same date and time at offset 0; appending it to a date-only form or to
    a string that has an offset leaves the format. *)
Lemma iso_fields_Z (s : string) (t : Z) (o : option Z) :
  Date.iso_fields s = Some (t, o) ->
  Date.iso_fields (s ++ "Z")
  = match o with None => Some (t, Some 0) | Some _ => None end.
Proof.
  unfold Date.iso_fields.
  destruct (Date.read_year s) as [[y r0]|] eqn:Ey; [|discriminate].
  rewrite (read_year_append _ _ "Z" _ Ey).
  destruct (Date.read_month_day r0) as [[[m d] r1]|] eqn:Em; [|discriminate].
  rewrite (read_month_day_Z _ _ _ _ Em).
  destruct (Date.valid_date y m d); [|discriminate]. cbn [negb].
  destruct r1 as [|c r2].
  - intros E. injection E as <- <-. reflexivity.
  - change (String c r2 ++ "Z") with (String c (r2 ++ "Z")). cbv beta iota.
    destruct (Ascii.eqb c "T"); [|discriminate].
    destruct (Date.read_time r2) as [[[[[hh mi] ss] ms] r3]|] eqn:Et; [|discriminate].
    rewrite (read_time_Z _ _ _ _ _ _ Et).
    destruct (Date.valid_time hh mi ss ms); [|discriminate]. cbn [negb].
    destruct (Date.read_offset r3) as [off|] eqn:Eo; [|discriminate].
    rewrite (read_offset_Z _ _ Eo).
    intros E. injection E as <- <-. destruct off; reflexivity.
Qed.

(** No sentinel is a standard date-time string. *)
Lemma iso_fields_not_sentinel (s : string) (t : Z) (o : option Z) :
  Date.iso_fields s = Some (t, o) -> isSentinel s = false.
Proof.
  intros E. destruct (isSentinel s) eqn:Hs; [|reflexivity]. exfalso.
  unfold isSentinel in Hs. rewrite !orb_true_iff in Hs.
  destruct Hs as [[H|H]|H].
  - destruct s; [discriminate E|discriminate H].
  - apply String.eqb_eq in H. subst. discriminate E.
  - apply String.eqb_eq in H. subst. discriminate E.
Qed.


(** *** What the parser consumes holds no [Z] *)

Lemma digit_not_Z (c : ascii) (d : Z) :
  Date.digit_val c = Some d -> Ascii.eqb c "Z" = false.
Proof.
  intros H. destruct (Ascii.eqb_spec c "Z") as [->|]; [discriminate H|reflexivity].
Qed.

Lemma noZ_cons (c : ascii) (p : string) :
  Ascii.eqb c "Z" = false -> noZ p -> noZ (String c p).
Proof. unfold noZ. intros Hc Hp. now rewrite includes_char_cons, Hc, Hp. Qed.

Lemma noZ_app (p q : string) : noZ p -> noZ q -> noZ (p ++ q).
Proof. unfold noZ. intros Hp Hq. now rewrite includes_char_app, Hp, Hq. Qed.

Lemma read_digits_consumed (k : nat) (acc : Z) (s r : string) (v : Z) :
  Date.read_digits k acc s = Some (v, r) -> exists p, s = p ++ r /\ noZ p.
Proof.
  revert acc s. induction k as [|k IH]; intros acc s E; cbn in E.
  - injection E as _ <-. exists EmptyString. split; reflexivity.
  - destruct s as [|c s]; [discriminate|].
    destruct (Date.digit_val c) as [d|] eqn:Ec; [|discriminate].
    destruct (IH _ _ E) as (p & -> & Hp). exists (String c p). split; [reflexivity|].
    apply noZ_cons; [now apply (digit_not_Z c d)|assumption].
Qed.

Lemma read_year_consumed (s r : string) (y : Z) :
  Date.read_year s = Some (y, r) -> exists p, s = p ++ r /\ noZ p.
Proof.
  destruct s as [|c s]; [discriminate|]. unfold Date.read_year.
  destruct (Ascii.eqb_spec c "+") as [->|_].
  - intros E. destruct (read_digits_consumed _ _ _ _ _ E) as (p & -> & Hp).
    exists (String "+" p). split; [reflexivity|]. now apply noZ_cons.
  - destruct (Ascii.eqb_spec c "-") as [->|_].
    + destruct (Date.read_digits 6 0 s) as [[v r']|] eqn:E; [|discriminate].
      destruct (v =? 0); [discriminate|]. intros E'. injection E' as _ <-.
      destruct (read_digits_consumed _ _ _ _ _ E) as (p & -> & Hp).
      exists (String "-" p). split; [reflexivity|]. now apply noZ_cons.
    + apply read_digits_consumed.
Qed.

Lemma read_month_day_consumed (s r : string) (m d : Z) :
  Date.read_month_day s = Some (m, d, r) -> exists p, s = p ++ r /\ noZ p.
Proof.
  unfold Date.read_month_day. destruct s as [|c s].
  - intros E. injection E as _ _ <-. exists EmptyString. split; reflexivity.
  - destruct (Ascii.eqb_spec c "-") as [->|_].
    + destruct (Date.read_digits 2 0 s) as [[m' r1]|] eqn:E1; [|discriminate].
      destruct (read_digits_consumed _ _ _ _ _ E1) as (p1 & -> & Hp1).
      destruct r1 as [|c1 r2].
      * intros E. injection E as _ _ <-. exists (String "-" p1).
        split; [reflexivity|]. now apply noZ_cons.
      * destruct (Ascii.eqb_spec c1 "-") as [->|_].
        -- destruct (Date.read_digits 2 0 r2) as [[d' r3]|] eqn:E2; [|discriminate].
           destruct (read_digits_consumed _ _ _ _ _ E2) as (p2 & -> & Hp2).
           intros E. injection E as _ _ <-.
           exists (String "-" (p1 ++ String "-" p2)). split.
           ++ cbn. f_equal. rewrite append_assoc. reflexivity.
           ++ apply noZ_cons; [reflexivity|]. apply noZ_app; [assumption|].
              now apply noZ_cons.
        -- intros E. injection E as _ _ <-. exists (String "-" p1).
           split; [reflexivity|]. now apply noZ_cons.
    + intros E. injection E as _ _ <-. exists EmptyString. split; reflexivity.
Qed.

Lemma read_time_consumed (s r : string) (hh mi ss ms : Z) :
  Date.read_time s = Some (hh, mi, ss, ms, r) -> exists p, s = p ++ r /\ noZ p.
Proof.
  unfold Date.read_time.
  destruct (Date.read_digits 2 0 s) as [[h' r1]|] eqn:E1; [|discriminate].
  destruct (read_digits_consumed _ _ _ _ _ E1) as (p1 & -> & Hp1).
  destruct r1 as [|c1 r2]; [discriminate|].
  destruct (Ascii.eqb_spec c1 ":") as [->|_]; [|discriminate].
  destruct (Date.read_digits 2 0 r2) as [[m' r3]|] eqn:E2; [|discriminate].
  destruct (read_digits_consumed _ _ _ _ _ E2) as (p2 & -> & Hp2).
  assert (H12 : noZ (p1 ++ String ":" p2))
    by (apply noZ_app; [assumption|now apply noZ_cons]).
  assert (A12 : forall q, p1 ++ String ":" (p2 ++ q) = (p1 ++ String ":" p2) ++ q)
    by (intros q; repeat (rewrite append_assoc; cbn [append]); reflexivity).
  destruct r3 as [|c3 r4].
  - intros E. injection E as _ _ _ _ <-. exists (p1 ++ String ":" p2). split; [apply A12|assumption].
  - destruct (Ascii.eqb_spec c3 ":") as [->|_].
    + destruct (Date.read_digits 2 0 r4) as [[s' r5]|] eqn:E3; [|discriminate].
      destruct (read_digits_consumed _ _ _ _ _ E3) as (p3 & -> & Hp3).
      assert (H123 : noZ ((p1 ++ String ":" p2) ++ String ":" p3))
        by (apply noZ_app; [assumption|now apply noZ_cons]).
      assert (A123 : forall q, p1 ++ String ":" (p2 ++ String ":" (p3 ++ q))
                               = ((p1 ++ String ":" p2) ++ String ":" p3) ++ q)
        by (intros q; repeat (rewrite append_assoc; cbn [append]); reflexivity).
      destruct r5 as [|c5 r6].
      * intros E. injection E as _ _ _ _ <-. eexists. split; [apply A123|assumption].
      * destruct (Ascii.eqb_spec c5 ".") as [->|_].
        -- destruct (Date.read_digits 3 0 r6) as [[ms' r7]|] eqn:E4; [|discriminate].
           destruct (read_digits_consumed _ _ _ _ _ E4) as (p4 & -> & Hp4).
           intros E. injection E as _ _ _ _ <-.
           exists ((((p1 ++ String ":" p2) ++ String ":" p3) ++ String "." p4)). split.
           ++ repeat (rewrite append_assoc; cbn [append]). reflexivity.
           ++ apply noZ_app; [assumption|now apply noZ_cons].
        -- intros E. injection E as _ _ _ _ <-. eexists. split; [apply A123|assumption].
    + intros E. injection E as _ _ _ _ <-. eexists. split; [apply A12|assumption].
Qed.

Lemma read_offset_absent (s : string) : Date.read_offset s = Some None -> s = EmptyString.
Proof.
  unfold Date.read_offset. destruct s as [|c r]; [reflexivity|].
  destruct (Ascii.eqb c "Z").
  - destruct r; discriminate.
  - destruct (if Ascii.eqb c "+" then Some 1
              else if Ascii.eqb c "-" then Some (-1) else None); [|discriminate].
    destruct (Date.read_digits 2 0 r) as [[hh r1]|]; [|discriminate].
    destruct r1 as [|c1 r2]; [discriminate|].
    destruct (Ascii.eqb c1 ":"); [|discriminate].
    destruct (Date.read_digits 2 0 r2) as [[mi r3]|]; [|discriminate].
    destruct r3; [|discriminate].
    destruct ((hh <=? 23) && (mi <=? 59)); discriminate.
Qed.

(** A standard date-time string without offset has a [T] and no [Z]. *)
Lemma iso_local_shape (s : string) (t : Z) :
  Date.iso_fields s = Some (t, None) ->
  JS.includes s "T" = true /\ JS.includes s "Z" = false.
Proof.
  unfold Date.iso_fields.
  destruct (Date.read_year s) as [[y r0]|] eqn:Ey; [|discriminate].
  destruct (read_year_consumed _ _ _ Ey) as (p0 & -> & H0).
  destruct (Date.read_month_day r0) as [[[m d] r1]|] eqn:Em; [|discriminate].
  destruct (read_month_day_consumed _ _ _ _ Em) as (p1 & -> & H1).
  destruct (Date.valid_date y m d); [|discriminate]. cbn [negb].
  destruct r1 as [|c r2]; [discriminate|].
  destruct (Ascii.eqb_spec c "T") as [->|_]; [|discriminate].
  destruct (Date.read_time r2) as [[[[[hh mi] ss] ms] r3]|] eqn:Et; [|discriminate].
  destruct (read_time_consumed _ _ _ _ _ _ Et) as (p2 & -> & H2).
  destruct (Date.valid_time hh mi ss ms); [|discriminate]. cbn [negb].
  destruct (Date.read_offset r3) as [off|] eqn:Eo; [|discriminate].
  intros E. injection E as _ ->. apply read_offset_absent in Eo. subst r3.
  unfold noZ in *. split.
  - rewrite !includes_char_app, includes_char_cons, Ascii.eqb_refl, !orb_true_r. reflexivity.
  - rewrite !includes_char_app, includes_char_cons, includes_char_app, H0, H1, H2. reflexivity.
Qed.

End ParseFacts.

(** ** The shift, field by field *)

Module ShiftFacts.
Import DigitFacts RenderFacts ParseFacts.

(** *** Adding five and a half hours, field by field *)

Lemma Day_shift (t : Z) :
  Day (t + 19800000) = Day t + (if TimeWithinDay t <? 66600000 then 0 else 1).
Proof.
  unfold Day, TimeWithinDay, msPerDay.
  destruct (Z.ltb_spec (t mod 86400000) 66600000); Z.div_mod_to_equations; lia.
Qed.

Lemma Day_next (t : Z) : Day (t + msPerDay) = Day t + 1.
Proof. unfold Day, msPerDay. Z.div_mod_to_equations. lia. Qed.

Lemma SecFromTime_shift (t : Z) : SecFromTime (t + 19800000) = SecFromTime t.
Proof. unfold SecFromTime, msPerSecond. Z.div_mod_to_equations. lia. Qed.

Lemma MinFromTime_add30 (t : Z) :
  MinFromTime (t + 19800000) = (MinFromTime t + 30) mod 60.
Proof. unfold MinFromTime, msPerMinute. Z.div_mod_to_equations. lia. Qed.

Lemma HourFromTime_shift (t : Z) :
  HourFromTime (t + 19800000)
  = (HourFromTime t + 5 + (if MinFromTime t <? 30 then 0 else 1)) mod 24.
Proof.
  unfold HourFromTime, MinFromTime, msPerHour, msPerMinute.
  destruct (Z.ltb_spec ((t / 60000) mod 60) 30); Z.div_mod_to_equations; lia.
Qed.

(** The calendar date is a function of the day number. *)
Lemma date_fields_of_day (a b : Z) :
  Day a = Day b ->
  YearFromTime a = YearFromTime b
  /\ MonthFromTime a = MonthFromTime b
  /\ DateFromTime a = DateFromTime b.
Proof.
  intros E.
  assert (Hy : YearFromTime a = YearFromTime b) by (unfold YearFromTime; now rewrite E).
  assert (Hw : DayWithinYear a = DayWithinYear b) by (unfold DayWithinYear; now rewrite E, Hy).
  assert (Hm : MonthFromTime a = MonthFromTime b)
    by (unfold MonthFromTime, InLeapYear; now rewrite Hw, Hy).
  repeat split; try assumption.
  unfold DateFromTime, InLeapYear. now rewrite Hw, Hy, Hm.
Qed.

Lemma renderDate_of_day (a b : Z) : Day a = Day b -> renderDate a = renderDate b.
Proof.
  intros E. destruct (date_fields_of_day a b E) as (Hy & Hm & Hd).
  unfold renderDate. now rewrite Hy, Hm, Hd.
Qed.

Lemma renderUTC_split (t : Z) :
  renderUTC t
  = renderDate t ++ "T" ++ pad2 (HourFromTime t) ++ ":" ++ pad2 (MinFromTime t)
      ++ ":" ++ pad2 (SecFromTime t).
Proof. unfold renderUTC, renderDate. rewrite !append_assoc. reflexivity. Qed.

(** Milliseconds do not show. *)
Lemma renderUTC_seconds (a b : Z) : a / 1000 = b / 1000 -> renderUTC a = renderUTC b.
Proof.
  intros E.
  assert (Hd : Day a = Day b) by (unfold Day, msPerDay; Z.div_mod_to_equations; lia).
  assert (Hh : HourFromTime a = HourFromTime b)
    by (unfold HourFromTime, msPerHour; Z.div_mod_to_equations; lia).
  assert (Hm : MinFromTime a = MinFromTime b)
    by (unfold MinFromTime, msPerMinute; Z.div_mod_to_equations; lia).
  assert (Hs : SecFromTime a = SecFromTime b)
    by (unfold SecFromTime, msPerSecond; now rewrite E).
  rewrite !renderUTC_split, (renderDate_of_day a b Hd), Hh, Hm, Hs. reflexivity.
Qed.

(** *** The result for an input that parses *)

Lemma convert_valid (h : Host) (x : string) (t : Z) :
  isSentinel x = false ->
  Date.DateValue (Date.of_string h (parseArgument x)) = JS.Int t ->
  t + 330 * msPerMinute <= maxTime ->
  convertUTCToTimezone h x IST = renderUTC (t + 19800000).
Proof.
  intros Hs Hd Hmax. pose proof (of_string_range _ _ _ Hd) as Hr.
  rewrite convertUTCToTimezone_IST by assumption.
  rewrite (shiftIST_valid _ t Hd) by (unfold maxTime, msPerMinute in *; lia).
  apply formatUTCFields_valid.
Qed.

Lemma convert_cases (h : Host) (x : string) :
  isSentinel x = false ->
  convertUTCToTimezone h x IST = invalidDateText
  \/ exists t, convertUTCToTimezone h x IST = renderUTC t.
Proof.
  intros Hs. rewrite convertUTCToTimezone_IST by assumption. apply formatUTCFields_cases.
Qed.

Lemma year_short_all (y : Z) :
  0 <= y <= 999 -> (String.length (JS.ToString (JS.Int y)) <=? 3)%nat = true.
Proof.
  intros H.
  apply (range_forallb (fun k => (String.length (JS.ToString (JS.Int k)) <=? 3)%nat) 0 1000);
    [vm_compute; reflexivity | lia].
Qed.

End ShiftFacts.

Import DigitFacts RenderFacts ParseFacts ShiftFacts.

(** ** From a calendar date to its time value and back *)

Module DateFacts.

Lemma YearFromDay_unique (y d : Z) :
  DayFromYear y <= d < DayFromYear (y + 1) -> YearFromDay d = y.
Proof.
  intros [Hlo Hhi]. pose proof (YearFromDay_largest d y Hlo) as Hle.
  destruct (Z.eq_dec (YearFromDay d) y) as [|Hne]; [assumption|exfalso].
  pose proof (YearFromDay_spec d) as [Hs _].
  pose proof (DayFromYear_le (y + 1) (YearFromDay d) ltac:(lia)). lia.
Qed.

Lemma month_cases (m : Z) :
  0 <= m <= 11 ->
  m = 0 \/ m = 1 \/ m = 2 \/ m = 3 \/ m = 4 \/ m = 5 \/ m = 6 \/ m = 7 \/ m = 8
  \/ m = 9 \/ m = 10 \/ m = 11.
Proof. lia. Qed.

Ltac eval_cal :=
  repeat match goal with
  | |- context [monthStart true ?m] =>
      let v := eval vm_compute in (monthStart true m) in
      progress change (monthStart true m) with v
  | |- context [monthStart false ?m] =>
      let v := eval vm_compute in (monthStart false m) in
      progress change (monthStart false m) with v
  | |- context [DaysInMonth true ?m] =>
      let v := eval vm_compute in (DaysInMonth true m) in
      progress change (DaysInMonth true m) with v
  | |- context [DaysInMonth false ?m] =>
      let v := eval vm_compute in (DaysInMonth false m) in
      progress change (DaysInMonth false m) with v
  end.

Ltac each_month H :=
  apply month_cases in H;
  repeat (destruct H as [H|H]; [subst|]); [..|subst].

(** Where in its year a date that exists lies. *)
Lemma day_in_year (y m d : Z) :
  validDate (y, m, d) ->
  0 <= monthStart (isLeap y) m + d - 1 < DaysInYear y.
Proof.
  intros [Hm Hd]. unfold DaysInYear. revert Hd.
  each_month Hm; destruct (isLeap y); eval_cal; lia.
Qed.

Lemma MakeDay_valid (y m d : Z) :
  0 <= m <= 11 -> MakeDay y m d = DayFromYear y + monthStart (isLeap y) m + d - 1.
Proof.
  intros Hm. unfold MakeDay. cbv zeta.
  rewrite Z.div_small, Z.mod_small by lia.
  replace (y + 0) with y by lia. reflexivity.
Qed.

(** The calendar date of any time on the day that [MakeDay] gives for a
    date that exists is that date. *)
Lemma dateOf_MakeDay (y m d tod : Z) :
  validDate (y, m, d) -> 0 <= tod < msPerDay ->
  dateOf (MakeDate (MakeDay y m d) tod) = (y, m, d).
Proof.
  intros Hv Htod. pose proof (day_in_year y m d Hv) as Hin.
  destruct Hv as [Hm Hd]. rewrite MakeDay_valid by assumption.
  set (w := monthStart (isLeap y) m + d - 1) in *.
  assert (Hday : Day (MakeDate (DayFromYear y + monthStart (isLeap y) m + d - 1) tod)
                 = DayFromYear y + w).
  { unfold Day, MakeDate, w, msPerDay in *. Z.div_mod_to_equations. lia. }
  set (t := MakeDate (DayFromYear y + monthStart (isLeap y) m + d - 1) tod) in *.
  assert (Hy : YearFromTime t = y).
  { unfold YearFromTime. rewrite Hday. apply YearFromDay_unique.
    rewrite DayFromYear_succ. lia. }
  assert (Hw : DayWithinYear t = w) by (unfold DayWithinYear; rewrite Hday, Hy; lia).
  assert (Hmo : MonthFromTime t = m).
  { unfold MonthFromTime, InLeapYear. rewrite Hw, Hy. cbv zeta.
    unfold w, DaysInYear in *. clear Hday Hy Hw t. revert Hd Hin.
    each_month Hm; destruct (isLeap y); eval_cal; intros; boolZ; lia. }
  unfold dateOf. rewrite Hy, Hmo. f_equal.
  unfold DateFromTime, InLeapYear. rewrite Hw, Hy, Hmo. unfold w. lia.
Qed.

Lemma dateOf_valid (t : Z) : validDate (dateOf t).
Proof.
  unfold dateOf, validDate. pose proof (MonthFromTime_range t).
  pose proof (DateFromTime_range t). pose proof (DateFromTime_month t) as Hd.
  unfold InLeapYear in Hd. lia.
Qed.

Lemma nextDate_valid (ymd : Z * Z * Z) : validDate ymd -> validDate (nextDate ymd).
Proof.
  destruct ymd as [[y m] d]. intros [Hm Hd]. unfold nextDate.
  destruct (Z.ltb_spec d (DaysInMonth (isLeap y) m)).
  - split; lia.
  - destruct (Z.ltb_spec m 11).
    + split; [lia|]. pose proof (DaysInMonth_range (isLeap y) (m + 1)). lia.
    + split; [lia|]. pose proof (DaysInMonth_range (isLeap (y + 1)) 0). lia.
Qed.

(** [nextDate] is the date of the next day. *)
Lemma MakeDay_nextDate (y m d : Z) :
  validDate (y, m, d) ->
  let '(y', m', d') := nextDate (y, m, d) in
  MakeDay y' m' d' = MakeDay y m d + 1.
Proof.
  intros [Hm Hd]. unfold nextDate.
  destruct (Z.ltb_spec d (DaysInMonth (isLeap y) m)) as [Hlt|Hge].
  - rewrite !MakeDay_valid by assumption. lia.
  - assert (Hlast : d = DaysInMonth (isLeap y) m) by lia. clear Hd Hge.
    destruct (Z.ltb_spec m 11) as [Hm11|Hm11].
    + rewrite !MakeDay_valid by lia. subst d.
      each_month Hm; try lia; destruct (isLeap y); eval_cal; lia.
    + assert (m = 11) by lia. subst m d. rewrite !MakeDay_valid by lia.
      rewrite DayFromYear_succ. unfold DaysInYear.
      destruct (isLeap y); destruct (isLeap (y + 1)); eval_cal; lia.
Qed.

Lemma time_of_fields (t : Z) :
  t = MakeDate (MakeDay (YearFromTime t) (MonthFromTime t) (DateFromTime t))
               (TimeWithinDay t).
Proof.
  rewrite MakeDay_fields. unfold MakeDate, Day, TimeWithinDay, msPerDay.
  Z.div_mod_to_equations. lia.
Qed.

(** One day later the calendar shows the next date. *)
Lemma dateOf_next_day (t : Z) : dateOf (t + msPerDay) = nextDate (dateOf t).
Proof.
  pose proof (dateOf_valid t) as Hv. pose proof (nextDate_valid _ Hv) as Hv'.
  pose proof (MakeDay_nextDate _ _ _ Hv) as Hn. unfold dateOf in *.
  destruct (nextDate (YearFromTime t, MonthFromTime t, DateFromTime t))
    as [[y' m'] d'] eqn:En.
  rewrite MakeDay_fields in Hn.
  assert (Ht : t + msPerDay = MakeDate (MakeDay y' m' d') (TimeWithinDay t)).
  { rewrite Hn. unfold MakeDate, Day, TimeWithinDay, msPerDay.
    Z.div_mod_to_equations. lia. }
  pose proof (dateOf_MakeDay y' m' d' (TimeWithinDay t) Hv') as Hd.
  unfold dateOf in Hd. rewrite <- Ht in Hd. apply Hd.
  unfold TimeWithinDay, msPerDay. apply Z.mod_pos_bound. lia.
Qed.

End DateFacts.

(** ** Reading back what was printed, for every year *)

Module ReparseFacts.
Import DateFacts.

Lemma TimeClip_in_range (z : Z) : Z.abs z <= maxTime -> TimeClip (JS.Int z) = JS.Int z.
Proof.
  intros H. unfold TimeClip. destruct (Z.ltb_spec maxTime (Z.abs z)); [lia|reflexivity].
Qed.

Lemma TimeClip_idem (n : JS.number) : TimeClip (TimeClip n) = TimeClip n.
Proof.
  destruct n as [|z]; [reflexivity|]. cbn [TimeClip].
  destruct (Z.ltb_spec maxTime (Z.abs z)); [reflexivity|]. now apply TimeClip_in_range.
Qed.

(** A standard string with an offset (or a date-only one) yields the date
    and time it spells minus the offset, when that is a time value. *)
Lemma of_string_standard (h : Host) (s : string) (t o : Z) :
  Date.iso_fields s = Some (t, Some o) ->
  Z.abs (t - o) <= maxTime ->
  Date.parse h s = JS.Int (t - o)
  /\ Date.DateValue (Date.of_string h s) = JS.Int (t - o).
Proof.
  intros E Hr. unfold Date.of_string, Date.DateValue, Date.parse, Date.parse_iso.
  rewrite E, TimeClip_idem, TimeClip_in_range by assumption. split; reflexivity.
Qed.

Lemma of_string_standard_overflow (h : Host) (s : string) (t o : Z) :
  Date.iso_fields s = Some (t, Some o) ->
  maxTime < Z.abs (t - o) ->
  Date.DateValue (Date.of_string h s) = JS.NaN.
Proof.
  intros E Hr. unfold Date.of_string, Date.DateValue, Date.parse, Date.parse_iso.
  rewrite E, TimeClip_idem. unfold TimeClip.
  destruct (Z.ltb_spec maxTime (Z.abs (t - o))); [reflexivity|lia].
Qed.

Lemma of_string_legacy (h : Host) (s : string) :
  Date.iso_fields s = None ->
  Date.DateValue (Date.of_string h s) = TimeClip (Date.legacy_parse h s).
Proof.
  intros E. unfold Date.of_string, Date.DateValue, Date.parse, Date.parse_iso.
  rewrite E. apply TimeClip_idem.
Qed.

(** *** A printed integer determines the integer *)

Lemma digitsValue_digits_fuel (f : nat) (n : Z) (acc : string) :
  0 <= n < 2 ^ Z.of_nat f ->
  fst (digitsValue (JS.digits_fuel f n acc))
  = n * snd (digitsValue acc) + fst (digitsValue acc).
Proof.
  revert n acc. induction f as [|f IH]; intros n acc Hn.
  - cbn in *. assert (n = 0) by lia. subst. lia.
  - cbn [JS.digits_fuel].
    assert (Hd : Date.digit_val (JS.digit_char (n mod 10)) = Some (n mod 10)).
    { apply DigitFacts.digit_char_val. pose proof (Z.mod_pos_bound n 10). lia. }
    assert (Hacc' : digitsValue (String (JS.digit_char (n mod 10)) acc)
                    = (n mod 10 * snd (digitsValue acc) + fst (digitsValue acc),
                       10 * snd (digitsValue acc))).
    { cbn [digitsValue]. rewrite Hd. destruct (digitsValue acc). reflexivity. }
    destruct (Z.ltb_spec n 10) as [Hlt|Hge].
    + rewrite Hacc'. cbn [fst]. rewrite Z.mod_small by lia. reflexivity.
    + rewrite IH, Hacc'.
      * cbn [fst snd]. Z.div_mod_to_equations. nia.
      * rewrite Nat2Z.inj_succ, Z.pow_succ_r in Hn by lia.
        Z.div_mod_to_equations. lia.
Qed.

Lemma digitsValue_digits (n : Z) : 0 <= n -> fst (digitsValue (JS.digits n)) = n.
Proof.
  intros Hn. unfold JS.digits. rewrite digitsValue_digits_fuel.
  - cbn. lia.
  - rewrite Nat2Z.inj_succ, Z2Nat.id by apply Z.log2_nonneg.
    destruct (Z.eq_dec n 0) as [->|]; [cbn; lia|].
    pose proof (Z.log2_spec n ltac:(lia)). lia.
Qed.

Lemma ToString_inj (a b : Z) : JS.ToString (JS.Int a) = JS.ToString (JS.Int b) -> a = b.
Proof.
  unfold JS.ToString.
  assert (Hno : forall n, JS.includes (JS.digits n) "-" = false)
    by (intros n; unfold JS.digits; now rewrite DigitFacts.digits_fuel_includes).
  destruct (Z.ltb_spec a 0), (Z.ltb_spec b 0); intros E.
  - injection E as E. apply (f_equal (fun s => fst (digitsValue s))) in E.
    rewrite !digitsValue_digits in E by lia. lia.
  - exfalso. pose proof (Hno b) as Hb. rewrite <- E in Hb.
    rewrite includes_char_cons, Ascii.eqb_refl in Hb. discriminate Hb.
  - exfalso. pose proof (Hno a) as Ha. rewrite E in Ha.
    rewrite includes_char_cons, Ascii.eqb_refl in Ha. discriminate Ha.
  - apply (f_equal (fun s => fst (digitsValue s))) in E.
    rewrite !digitsValue_digits in E by lia. exact E.
Qed.

(** Equal renderings come from instants that agree to the second, in
    whatever years. *)
Lemma renderUTC_inj (a b : Z) : renderUTC a = renderUTC b -> a / 1000 = b / 1000.
Proof.
  intros E.
  pose proof (MonthFromTime_range a). pose proof (MonthFromTime_range b).
  pose proof (DateFromTime_range a). pose proof (DateFromTime_range b).
  pose proof (HourFromTime_range a). pose proof (HourFromTime_range b).
  pose proof (MinFromTime_range a). pose proof (MinFromTime_range b).
  pose proof (SecFromTime_range a). pose proof (SecFromTime_range b).
  assert (Hlen : String.length (JS.ToString (JS.Int (YearFromTime a)))
                 = String.length (JS.ToString (JS.Int (YearFromTime b)))).
  { pose proof (f_equal String.length E) as L.
    rewrite !RenderFacts.renderUTC_length_year in L. lia. }
  unfold renderUTC in E.
  apply append_inj in E; [|exact Hlen]. destruct E as [Ey E].
  apply ToString_inj in Ey.
  cbn [append] in E. injection E as E.
  apply append_inj in E; [|rewrite !pad2_length by lia; reflexivity]. destruct E as [Em E].
  cbn [append] in E. injection E as E.
  apply append_inj in E; [|rewrite !pad2_length by lia; reflexivity]. destruct E as [Ed E].
  cbn [append] in E. injection E as E.
  apply append_inj in E; [|rewrite !pad2_length by lia; reflexivity]. destruct E as [Eh E].
  cbn [append] in E. injection E as E.
  apply append_inj in E; [|rewrite !pad2_length by lia; reflexivity]. destruct E as [Ei Es].
  cbn [append] in Es. injection Es as Es.
  apply pad2_inj in Em, Ed, Eh, Ei, Es; try lia.
  pose proof (MakeDate_fields a) as Fa. pose proof (MakeDate_fields b) as Fb.
  rewrite Ey, Ed, Eh, Ei, Es in Fa.
  replace (MonthFromTime a) with (MonthFromTime b) in Fa by lia.
  rewrite Fb in Fa. Z.div_mod_to_equations. lia.
Qed.

End ReparseFacts.

(** ** Printed years and the year of the standard format *)

Module DecimalFacts.
Import DateFacts ReparseFacts.

Lemma allDigits_digits_fuel (f : nat) (n : Z) (acc : string) :
  allDigits acc = true -> allDigits (JS.digits_fuel f n acc) = true.
Proof.
  revert n acc. induction f as [|f IH]; intros n acc Hacc; cbn [JS.digits_fuel].
  - assumption.
  - assert (Hc : allDigits (String (JS.digit_char (n mod 10)) acc) = true).
    { cbn [allDigits]. rewrite DigitFacts.digit_char_val; [assumption|].
      pose proof (Z.mod_pos_bound n 10). lia. }
    destruct (n <? 10); [assumption|]. now apply IH.
Qed.

Lemma allDigits_digits (n : Z) : allDigits (JS.digits n) = true.
Proof. unfold JS.digits. now apply allDigits_digits_fuel. Qed.

(** A number below [10^k] has at most [k] digits. *)
Lemma digits_fuel_at_most (f k : nat) (n : Z) (acc : string) :
  (1 <= k)%nat -> 0 <= n < 10 ^ Z.of_nat k ->
  (String.length (JS.digits_fuel f n acc) <= k + String.length acc)%nat.
Proof.
  revert k n acc. induction f as [|f IH]; intros k n acc Hk Hn; cbn [JS.digits_fuel].
  - lia.
  - destruct (Z.ltb_spec n 10) as [Hlt|Hge].
    + cbn. lia.
    + destruct k as [|[|k]]; [lia| cbn in Hn; lia |].
      etransitivity; [apply (IH (S k))|cbn; lia]; [lia|].
      rewrite (Nat2Z.inj_succ (S k)), Z.pow_succ_r in Hn by lia.
      Z.div_mod_to_equations. lia.
Qed.

(** A number from [10^k] on has more than [k] digits. *)
Lemma digits_fuel_at_least (f k : nat) (n : Z) (acc : string) :
  10 ^ Z.of_nat k <= n < 2 ^ Z.of_nat f ->
  (k + 1 + String.length acc <= String.length (JS.digits_fuel f n acc))%nat.
Proof.
  revert k n acc. induction f as [|f IH]; intros k n acc Hn.
  - cbn in Hn. pose proof (Z.pow_pos_nonneg 10 (Z.of_nat k)). lia.
  - cbn [JS.digits_fuel]. destruct (Z.ltb_spec n 10) as [Hlt|Hge].
    + destruct k as [|k]; [cbn; lia|].
      rewrite Nat2Z.inj_succ, Z.pow_succ_r in Hn by lia.
      pose proof (Z.pow_pos_nonneg 10 (Z.of_nat k)). lia.
    + destruct k as [|k].
      * pose proof (DigitFacts.digits_fuel_length f (n / 10)
                      (String (JS.digit_char (n mod 10)) acc)) as L.
        cbn in L |- *. lia.
      * etransitivity; [|apply (IH k)]; [cbn; lia|].
        rewrite !Nat2Z.inj_succ, !Z.pow_succ_r in Hn by lia.
        Z.div_mod_to_equations. lia.
Qed.

Lemma digits_fuel_enough (n : Z) :
  0 <= n -> n < 2 ^ Z.of_nat (S (Z.to_nat (Z.log2 n))).
Proof.
  intros Hn. rewrite Nat2Z.inj_succ, Z2Nat.id by apply Z.log2_nonneg.
  destruct (Z.eq_dec n 0) as [->|]; [cbn; lia|].
  pose proof (Z.log2_spec n ltac:(lia)). lia.
Qed.

Lemma digits_length (k : nat) (n : Z) :
  10 ^ Z.of_nat k <= n < 10 ^ Z.of_nat (S k) ->
  String.length (JS.digits n) = S k.
Proof.
  intros Hn. pose proof (Z.pow_pos_nonneg 10 (Z.of_nat k)).
  pose proof (digits_fuel_enough n ltac:(lia)).
  pose proof (digits_fuel_at_most (S (Z.to_nat (Z.log2 n))) (S k) n EmptyString
                ltac:(lia) ltac:(lia)) as Hmost.
  pose proof (digits_fuel_at_least (S (Z.to_nat (Z.log2 n))) k n EmptyString
                ltac:(lia)) as Hleast.
  unfold JS.digits. cbn [String.length] in *. lia.
Qed.

Lemma snd_digitsValue (s : string) : snd (digitsValue s) = 10 ^ Z.of_nat (String.length s).
Proof.
  induction s as [|c s IH]; [reflexivity|].
  cbn [digitsValue String.length]. destruct (digitsValue s) as [v p]. cbn [snd] in *.
  rewrite Nat2Z.inj_succ, Z.pow_succ_r by lia. lia.
Qed.

(** *** [read_digits] on a run of digits *)

Lemma read_digits_exact (ds rest : string) (acc : Z) :
  allDigits ds = true ->
  Date.read_digits (String.length ds) acc (ds ++ rest)
  = Some (acc * 10 ^ Z.of_nat (String.length ds) + fst (digitsValue ds), rest).
Proof.
  revert acc. induction ds as [|c ds IH]; intros acc Hd.
  - cbn. do 2 f_equal. lia.
  - cbn [allDigits] in Hd. destruct (Date.digit_val c) as [d|] eqn:Ec; [|discriminate].
    cbn [String.length append Date.read_digits]. rewrite Ec, IH by assumption.
    cbn [digitsValue]. rewrite Ec. pose proof (snd_digitsValue ds) as Hs.
    destruct (digitsValue ds) as [v p]. cbn [fst snd] in *. subst p.
    rewrite Nat2Z.inj_succ, Z.pow_succ_r by lia. do 2 f_equal. lia.
Qed.

(** Too few digits before a character that is none. *)
Lemma read_digits_short (k : nat) (ds : string) (c : ascii) (r : string) (acc : Z) :
  allDigits ds = true -> (String.length ds < k)%nat -> Date.digit_val c = None ->
  Date.read_digits k acc (ds ++ String c r) = None.
Proof.
  revert k acc. induction ds as [|c' ds IH]; intros k acc Hd Hk Hc.
  - destruct k as [|k]; [cbn in Hk; lia|]. cbn. now rewrite Hc.
  - cbn [allDigits] in Hd. destruct (Date.digit_val c') as [d|] eqn:Ec; [|discriminate].
    destruct k as [|k]; [cbn in Hk; lia|].
    cbn [append Date.read_digits]. rewrite Ec. apply IH; [assumption| cbn in Hk; lia |assumption].
Qed.

(** More digits than are read: a digit is left in front. *)
Lemma read_digits_long (k : nat) (ds rest : string) (acc : Z) :
  allDigits ds = true -> (k < String.length ds)%nat ->
  exists v c r, Date.read_digits k acc (ds ++ rest) = Some (v, String c r)
                /\ Date.digit_val c <> None.
Proof.
  revert k acc. induction ds as [|c' ds IH]; intros k acc Hd Hk.
  - cbn in Hk. lia.
  - cbn [allDigits] in Hd. destruct (Date.digit_val c') as [d|] eqn:Ec; [|discriminate].
    destruct k as [|k].
    + exists acc, c', (ds ++ rest). split; [reflexivity|]. rewrite Ec. discriminate.
    + cbn [append Date.read_digits]. rewrite Ec. apply IH; [assumption|cbn in Hk; lia].
Qed.

(** *** [read_year] on a printed year *)

Lemma digit_not_sign (c : ascii) (d : Z) :
  Date.digit_val c = Some d -> Ascii.eqb c "+" = false /\ Ascii.eqb c "-" = false.
Proof.
  intros H. split.
  - destruct (Ascii.eqb_spec c "+") as [->|]; [discriminate H|reflexivity].
  - destruct (Ascii.eqb_spec c "-") as [->|]; [discriminate H|reflexivity].
Qed.

Lemma read_year_unsigned (ds rest : string) :
  allDigits ds = true -> ds <> EmptyString ->
  Date.read_year (ds ++ rest) = Date.read_digits 4 0 (ds ++ rest).
Proof.
  intros Hd Hne. destruct ds as [|c ds]; [congruence|].
  cbn [allDigits] in Hd. destruct (Date.digit_val c) as [d|] eqn:Ec; [|discriminate].
  destruct (digit_not_sign c d Ec) as [Hp Hm].
  unfold Date.read_year. cbn [append]. now rewrite Hp, Hm.
Qed.

Lemma digits_nonempty (n : Z) : JS.digits n <> EmptyString.
Proof.
  intros E. unfold JS.digits in E. cbn [JS.digits_fuel] in E.
  destruct (n <? 10); [discriminate|].
  pose proof (DigitFacts.digits_fuel_length (Z.to_nat (Z.log2 n)) (n / 10)
                (String (JS.digit_char (n mod 10)) EmptyString)) as L.
  rewrite E in L. cbn in L. lia.
Qed.

(** A year printed with four digits, or as a minus sign and six digits,
    is read by [read_year] as the year it is; any other printed year,
    followed by a dash, is not the start of a standard string. *)
Lemma read_year_printed (y : Z) (rest : string) :
  1000 <= y <= 9999 \/ -999999 <= y <= -100000 ->
  Date.read_year (JS.ToString (JS.Int y) ++ rest) = Some (y, rest).
Proof.
  unfold JS.ToString. destruct (Z.ltb_spec y 0) as [Hneg|Hpos].
  - intros [H|H]; [lia|]. set (n := - y).
    pose proof (allDigits_digits n) as Hall.
    assert (Hlen : String.length (JS.digits n) = 6%nat)
      by (apply (digits_length 5); unfold n; cbn; lia).
    pose proof (read_digits_exact (JS.digits n) rest 0 Hall) as Hr.
    rewrite Hlen in Hr. rewrite ReparseFacts.digitsValue_digits in Hr by (unfold n; lia).
    unfold Date.read_year. cbn [append].
    change (Ascii.eqb "-" "+") with false. change (Ascii.eqb "-" "-") with true.
    cbv beta iota. rewrite Hr. cbn [Z.mul Z.add].
    destruct (Z.eqb_spec n 0); [unfold n in *; lia|].
    unfold n. do 2 f_equal. lia.
  - intros [H|H]; [|lia].
    pose proof (allDigits_digits y) as Hall.
    assert (Hlen : String.length (JS.digits y) = 4%nat)
      by (apply (digits_length 3); cbn; lia).
    rewrite read_year_unsigned by (assumption || apply digits_nonempty).
    pose proof (read_digits_exact (JS.digits y) rest 0 Hall) as Hr.
    rewrite Hlen in Hr. rewrite ReparseFacts.digitsValue_digits in Hr by lia.
    rewrite Hr. reflexivity.
Qed.

Lemma read_year_blocked (y : Z) (rest : string) :
  -999999 <= y -> ~ (1000 <= y <= 9999 \/ -999999 <= y <= -100000) ->
  Date.read_year (JS.ToString (JS.Int y) ++ String "-" rest) = None
  \/ exists v c r,
       Date.read_year (JS.ToString (JS.Int y) ++ String "-" rest) = Some (v, String c r)
       /\ Date.digit_val c <> None.
Proof.
  intros Hlo Hout. unfold JS.ToString. destruct (Z.ltb_spec y 0) as [Hneg|Hpos].
  - left. set (n := - y). assert (Hn : 0 < n < 100000) by (unfold n; lia).
    pose proof (allDigits_digits n) as Hall.
    unfold Date.read_year. cbn [append].
    change (Ascii.eqb "-" "+") with false. change (Ascii.eqb "-" "-") with true.
    cbv beta iota.
    rewrite read_digits_short; [reflexivity|assumption| |reflexivity].
    pose proof (digits_fuel_at_most (S (Z.to_nat (Z.log2 n))) 5 n EmptyString
                  ltac:(lia) ltac:(cbn; lia)) as L.
    unfold JS.digits. cbn [String.length] in L. lia.
  - pose proof (allDigits_digits y) as Hall.
    rewrite read_year_unsigned by (assumption || apply digits_nonempty).
    destruct (Z_lt_le_dec y 1000) as [Hsmall|Hbig].
    + left. apply read_digits_short; [assumption| |reflexivity].
      pose proof (digits_fuel_at_most (S (Z.to_nat (Z.log2 y))) 3 y EmptyString
                    ltac:(lia) ltac:(cbn; lia)) as L.
      unfold JS.digits. cbn [String.length] in L. lia.
    + right. apply read_digits_long; [assumption|].
      pose proof (digits_fuel_enough y ltac:(lia)).
      pose proof (digits_fuel_at_least (S (Z.to_nat (Z.log2 y))) 4 y EmptyString
                    ltac:(cbn; lia)) as L.
      unfold JS.digits. cbn [String.length] in L. lia.
Qed.

(** A string whose year is followed by a digit is no standard string. *)
Lemma iso_fields_blocked (s : string) :
  Date.read_year s = None
  \/ (exists v c r, Date.read_year s = Some (v, String c r) /\ Date.digit_val c <> None) ->
  Date.iso_fields s = None.
Proof.
  unfold Date.iso_fields. intros [E|(v & c & r & E & Hc)]; rewrite E; [reflexivity|].
  destruct (Date.digit_val c) as [d|] eqn:Ec; [|congruence].
  destruct (digit_not_sign c d Ec) as [_ Hm].
  unfold Date.read_month_day. rewrite Hm. cbv beta iota.
  destruct (Date.valid_date v 1 1); [|reflexivity]. cbn [negb].
  destruct (Ascii.eqb_spec c "T") as [->|]; [discriminate Ec|reflexivity].
Qed.

(** The years of time values. *)
Lemma YearFromTime_in_range (t : Z) :
  Z.abs t <= maxTime -> -271821 <= YearFromTime t <= 275760.
Proof.
  intros Ht. unfold YearFromTime.
  assert (Hd : -100000000 <= Day t <= 100000000)
    by (unfold Day, msPerDay, maxTime in *; Z.div_mod_to_equations; lia).
  split.
  - apply YearFromDay_largest. change (DayFromYear (-271821)) with (-100000109). lia.
  - pose proof (YearFromDay_spec (Day t)) as [Hs _].
    destruct (Z_le_gt_dec (YearFromDay (Day t)) 275760) as [|Hgt]; [assumption|exfalso].
    pose proof (DayFromYear_le 275761 (YearFromDay (Day t)) ltac:(lia)) as Hm.
    change (DayFromYear 275761) with 100000110 in Hm. lia.
Qed.

(** The text the functions print for a time value, with [Z] appended, is
    a standard string exactly when the year has four digits or is a
    negative year of six; it then spells the time value to the second. *)
Lemma render_reparse (t : Z) :
  -999999 <= YearFromTime t ->
  let y := YearFromTime t in
  if ((1000 <=? y) && (y <=? 9999)) || ((-999999 <=? y) && (y <=? -100000))
  then Date.iso_fields (renderUTC t ++ "Z") = Some (t - t mod 1000, Some 0)
  else Date.iso_fields (renderUTC t ++ "Z") = None.
Proof.
  intros Hlo y.
  pose proof (MonthFromTime_range t). pose proof (DateFromTime_range t).
  pose proof (HourFromTime_range t). pose proof (MinFromTime_range t).
  pose proof (SecFromTime_range t).
  destruct (((1000 <=? y) && (y <=? 9999)) || ((-999999 <=? y) && (y <=? -100000))) eqn:E.
  - assert (Hy : 1000 <= y <= 9999 \/ -999999 <= y <= -100000).
    { rewrite orb_true_iff, !andb_true_iff, !Z.leb_le in E. lia. }
    unfold renderUTC. rewrite !append_assoc. unfold Date.iso_fields.
    fold y. rewrite (read_year_printed y _ Hy). cbv beta iota.
    rewrite read_month_day_render by lia. cbv beta iota.
    unfold y. rewrite valid_date_fields. cbn [negb].
    match goal with
    | |- context ["T" ++ ?x] => change ("T" ++ x) with (String "T" x)
    end.
    cbv beta iota. rewrite Ascii.eqb_refl.
    rewrite read_time_render by lia. cbv beta iota.
    rewrite valid_time_fields. cbn [negb]. cbv beta iota.
    change (Date.read_offset "Z") with (Some (Some 0)). cbv beta iota.
    replace (MonthFromTime t + 1 - 1) with (MonthFromTime t) by lia.
    rewrite MakeDate_fields. reflexivity.
  - assert (Hy : ~ (1000 <= y <= 9999 \/ -999999 <= y <= -100000)).
    { rewrite orb_false_iff, !andb_false_iff, !Z.leb_gt in E. lia. }
    apply iso_fields_blocked. unfold renderUTC. rewrite !append_assoc.
    fold y. cbn [append]. apply read_year_blocked; assumption.
Qed.

End DecimalFacts.

Import DateFacts ReparseFacts DecimalFacts.

(** ** The documented examples *)

Example doc_example_utc (h : Host) :
  convertUTCToTimezone h "2024-01-01T00:00:00" UTC = "2024-01-01T00:00:00".
Proof. reflexivity. Qed.

Example doc_example_noon (h : Host) :
  convertUTCToIST h "2024-01-01T12:00:00" = "2024-01-01T17:30:00".
Proof. vm_compute. reflexivity. Qed.

(** The largest time value is 13 September 275760, as the standard says. *)
Example max_time_fields :
  (Time.YearFromTime Time.maxTime, Time.MonthFromTime Time.maxTime,
   Time.DateFromTime Time.maxTime) = (275760, 8, 13).
Proof. vm_compute. reflexivity. Qed.

(** ** The claims of the specification *)

(** C1 (as the code behaves).  When the string handed to [new Date] does
    not yield a valid instant, nothing throws, the [catch] branch is not
    taken, and both functions return the text [NaN-NaN-NaNTNaN:NaN:NaN]
    instead of the input. *)
Theorem invalid_instant_renders_NaN (h : Host) (x : string) :
  isSentinel x = false ->
  Date.DateValue (Date.of_string h (parseArgument x)) = JS.NaN ->
  convertUTCToTimezone h x IST = "NaN-NaN-NaNTNaN:NaN:NaN"
  /\ convertUTCToIST h x = "NaN-NaN-NaNTNaN:NaN:NaN".
Proof.
  intros Hs Hd.
  rewrite convertUTCToTimezone_IST, convertUTCToIST_body by assumption.
  rewrite (shiftIST_invalid _ Hd). split; reflexivity.
Qed.

Lemma invalid_instant_renders_NaN_witness :
  isSentinel "not-a-date" = false
  /\ Date.DateValue (Date.of_string strict_utc_host (parseArgument "not-a-date")) = JS.NaN
  /\ convertUTCToTimezone strict_utc_host "not-a-date" IST = "NaN-NaN-NaNTNaN:NaN:NaN"
  /\ convertUTCToIST strict_utc_host "not-a-date" = "NaN-NaN-NaNTNaN:NaN:NaN".
Proof.
  split; [reflexivity|]. split; [reflexivity|].
  apply (invalid_instant_renders_NaN strict_utc_host "not-a-date"); reflexivity.
Defined.

(** C2.  The three sentinels come back unchanged from both functions, for
    every zone and on every host: they never reach the date parser. *)
Theorem sentinel_passthrough (h : Host) (x : string) (zone : TimezoneType) :
  In x [EmptyString; "-∞"; "∞"] ->
  convertUTCToTimezone h x zone = x /\ convertUTCToIST h x = x.
Proof.
  intros [<-|[<-|[<-|[]]]]; destruct zone; split; reflexivity.
Qed.

Lemma sentinel_passthrough_witness :
  In "-∞" [EmptyString; "-∞"; "∞"]
  /\ convertUTCToTimezone strict_ist_host "-∞" IST = "-∞"
  /\ convertUTCToIST strict_ist_host "-∞" = "-∞".
Proof.
  split; [simpl; auto|].
  apply (sentinel_passthrough strict_ist_host "-∞" IST). simpl; auto.
Defined.

(** C3.  Under zone UTC the function is the identity on every string,
    sentinel or not, well-formed or not. *)
Theorem utc_identity (h : Host) (x : string) :
  convertUTCToTimezone h x UTC = x.
Proof.
  unfold convertUTCToTimezone.
  destruct (falsy x || String.eqb x "-∞" || String.eqb x "∞"); reflexivity.
Qed.

(** C5 (amended).  On a non-sentinel input and zone IST the string given
    to [new Date] is the input itself when it contains [Z] or [+], the
    input followed by [Z] when it contains [T] (and neither [Z] nor [+]),
    and the input itself otherwise.  In the first case a standard string
    that carries an offset is read as the zoned instant it spells, the same
    on every host; in the second a standard date-time string without
    offset is read as UTC, the same on every host. *)
Theorem parse_step_cases (h : Host) (x : string) :
  isSentinel x = false ->
  (JS.includes x "Z" = true \/ JS.includes x "+" = true ->
     convertUTCToTimezone h x IST
     = formatUTCFields (shiftIST (Date.of_string h x))
     /\ forall t o : Z,
          Date.iso_fields x = Some (t, Some o) -> Z.abs (t - o) <= maxTime ->
          Date.DateValue (Date.of_string h x) = JS.Int (t - o))
  /\ (JS.includes x "Z" = false -> JS.includes x "+" = false ->
      JS.includes x "T" = true ->
     convertUTCToTimezone h x IST
     = formatUTCFields (shiftIST (Date.of_string h (x ++ "Z")))
     /\ forall t : Z,
          Date.iso_fields x = Some (t, None) -> Z.abs t <= maxTime ->
          Date.DateValue (Date.of_string h (x ++ "Z")) = JS.Int t)
  /\ (JS.includes x "Z" = false -> JS.includes x "+" = false ->
      JS.includes x "T" = false ->
     convertUTCToTimezone h x IST
     = formatUTCFields (shiftIST (Date.of_string h x))).
Proof.
  intros Hs. rewrite convertUTCToTimezone_IST by assumption. unfold parseArgument.
  split; [|split].
  - intros Hzp. split.
    + destruct Hzp as [-> | ->]; [reflexivity | now rewrite orb_true_r].
    + intros t o E Hr. apply (of_string_standard h x t o E Hr).
  - intros -> -> ->. split; [reflexivity|].
    intros t E Hr. pose proof (iso_fields_Z _ _ _ E) as EZ. cbv beta iota in EZ.
    destruct (of_string_standard h (x ++ "Z") t 0 EZ) as [_ Hv];
      [now rewrite Z.sub_0_r|].
    now rewrite Z.sub_0_r in Hv.
  - intros -> -> ->. reflexivity.
Qed.

Lemma parse_step_cases_witness :
  isSentinel "2024-01-01T00:00:00" = false
  /\ JS.includes "2024-01-01T00:00:00" "Z" = false
  /\ JS.includes "2024-01-01T00:00:00" "+" = false
  /\ JS.includes "2024-01-01T00:00:00" "T" = true
  /\ Date.iso_fields "2024-01-01T00:00:00" = Some (1704067200000, None)
  /\ Date.DateValue (Date.of_string strict_ist_host "2024-01-01T00:00:00")
     = JS.Int 1704047400000
  /\ Date.DateValue (Date.of_string strict_ist_host ("2024-01-01T00:00:00" ++ "Z"))
     = JS.Int 1704067200000.
Proof.
  repeat (split; [reflexivity|]).
  exact (proj2 (proj1 (proj2 (parse_step_cases strict_ist_host "2024-01-01T00:00:00" eq_refl))
                  eq_refl eq_refl eq_refl)
           1704067200000 eq_refl ltac:(vm_compute; discriminate)).
Defined.

(** C5 as stated fails in both of its first two cases.  A [+] need not be
    an offset: the expanded year of [+002024-01-01T00:00:00] sends the
    string to the parser as it is, and it is read as local time, not as a
    zoned instant.  And a string with a [T] is not always treated as UTC:
    [2024-01-01T10:00:00-08:00] followed by [Z] is no date at all on a host
    that keeps to the standard format. *)
Lemma shape_test_misreads :
  JS.includes "+002024-01-01T00:00:00" "+" = true
  /\ Date.DateValue (Date.of_string strict_utc_host "+002024-01-01T00:00:00")
     = JS.Int 1704067200000
  /\ Date.DateValue (Date.of_string strict_ist_host "+002024-01-01T00:00:00")
     = JS.Int 1704047400000
  /\ JS.includes "2024-01-01T10:00:00-08:00" "Z" = false
  /\ JS.includes "2024-01-01T10:00:00-08:00" "+" = false
  /\ JS.includes "2024-01-01T10:00:00-08:00" "T" = true
  /\ Date.DateValue (Date.of_string strict_utc_host ("2024-01-01T10:00:00-08:00" ++ "Z"))
     = JS.NaN
  /\ convertUTCToTimezone strict_utc_host "2024-01-01T10:00:00-08:00" IST
     = "NaN-NaN-NaNTNaN:NaN:NaN".
Proof. repeat split; vm_compute; reflexivity. Qed.



(** C9.  The hard-wired function and the general one at zone IST agree on
    every input. *)
Theorem convertUTCToIST_agrees (h : Host) (x : string) :
  convertUTCToIST h x = convertUTCToTimezone h x IST.
Proof.
  unfold convertUTCToIST, convertUTCToTimezone.
  destruct (falsy x || String.eqb x "-∞" || String.eqb x "∞"); reflexivity.
Qed.




(** C7 (amended).  Two hosts return the same string for a sentinel, for
    zone UTC, and whenever their [Date.parse] agrees on the string the
    function hands to it; that is the case for every standard date-time
    string that is date-only or carries a UTC offset.  After the parse,
    nothing depends on the host. *)
Theorem host_independence (h1 h2 : Host) (x : string) (zone : TimezoneType) :
  isSentinel x = true
  \/ zone = UTC
  \/ explicitZone (parseArgument x) = true
  \/ Date.parse h1 (parseArgument x) = Date.parse h2 (parseArgument x) ->
  convertUTCToTimezone h1 x zone = convertUTCToTimezone h2 x zone.
Proof.
  intros Hcases.
  destruct (isSentinel x) eqn:Hs.
  { now rewrite !convertUTCToTimezone_sentinel. }
  destruct zone.
  { unfold convertUTCToTimezone; fold (isSentinel x); now rewrite Hs. }
  assert (Hp : Date.parse h1 (parseArgument x) = Date.parse h2 (parseArgument x)).
  { destruct Hcases as [H|[H|[H|H]]]; try discriminate.
    - now apply explicitZone_parse.
    - exact H. }
  rewrite !convertUTCToTimezone_IST by assumption.
  unfold Date.of_string. rewrite Hp. reflexivity.
Qed.

Lemma host_independence_witness :
  explicitZone (parseArgument "2024-01-01T00:00:00") = true
  /\ convertUTCToTimezone strict_utc_host "2024-01-01T00:00:00" IST
     = convertUTCToTimezone strict_ist_host "2024-01-01T00:00:00" IST.
Proof.
  split; [reflexivity|].
  apply (host_independence strict_utc_host strict_ist_host "2024-01-01T00:00:00" IST).
  right. right. left. reflexivity.
Defined.

(** C7 as stated fails: an expanded year brings a [+] into a date-time
    string without offset, the string is parsed as it is, and the
    standard reads it as local time. *)
Lemma expanded_year_read_as_local_time :
  convertUTCToTimezone strict_utc_host "+002024-01-01T00:00:00" IST = "2024-01-01T05:30:00"
  /\ convertUTCToTimezone strict_ist_host "+002024-01-01T00:00:00" IST = "2024-01-01T00:00:00"
  /\ convertUTCToTimezone strict_utc_host "+002024-01-01T00:00:00" IST
     <> convertUTCToTimezone strict_ist_host "+002024-01-01T00:00:00" IST.
Proof.
  repeat split; try (vm_compute; reflexivity). vm_compute. discriminate.
Qed.

(** C8 (amended).  For a non-sentinel input that parses to a valid instant
    whose shift stays within the time range, applying the function to its
    own result gives the same result again only if the host reads that
    result, followed by [Z], as an instant which shifted by 330 minutes is
    the first shifted instant to the second.  No host does so when the
    result followed by [Z] is a standard string, which it is for a shifted
    year of four digits and for a negative one of six: the result is then
    read back as UTC and the 330 minutes are added a second time.  Nor
    does a host that rejects the result followed by [Z] when it is not a
    standard string. *)
Theorem double_shift (h : Host) (x : string) (t : Z) :
  isSentinel x = false ->
  Date.DateValue (Date.of_string h (parseArgument x)) = JS.Int t ->
  t + 330 * msPerMinute <= maxTime ->
  let t' := t + 330 * msPerMinute in
  let out := convertUTCToTimezone h x IST in
  (convertUTCToTimezone h out IST = out
   <-> exists s, Date.DateValue (Date.of_string h (out ++ "Z")) = JS.Int s
                 /\ s + 330 * msPerMinute <= maxTime
                 /\ (s + 330 * msPerMinute) / 1000 = t' / 1000)
  /\ (1000 <= YearFromTime t' <= 9999 \/ YearFromTime t' <= -100000 ->
      convertUTCToTimezone h out IST = renderUTC (t' - t' mod 1000 + 330 * msPerMinute)
      /\ convertUTCToTimezone h out IST <> out)
  /\ (Date.legacy_parse h (out ++ "Z") = JS.NaN ->
      convertUTCToTimezone h out IST <> out).
Proof.
  intros Hs Hd Hmax t' out.
  pose proof (of_string_range _ _ _ Hd) as Hr.
  assert (Ht' : t' = t + 19800000) by (unfold t', msPerMinute; lia).
  assert (Hrange : Z.abs t' <= maxTime) by (unfold maxTime, msPerMinute in *; lia).
  assert (Hout : out = renderUTC t')
    by (unfold out; rewrite (convert_valid h x t Hs Hd Hmax), Ht'; reflexivity).
  assert (Hnext : convertUTCToTimezone h out IST
                  = formatUTCFields (shiftIST (Date.of_string h (out ++ "Z")))).
  { rewrite Hout. rewrite convertUTCToTimezone_IST by apply renderUTC_never_sentinel.
    now rewrite renderUTC_appends_Z. }
  pose proof (YearFromTime_in_range t' Hrange) as Hyr.
  assert (Hstd : 1000 <= YearFromTime t' <= 9999 \/ YearFromTime t' <= -100000 ->
                 convertUTCToTimezone h out IST
                 = renderUTC (t' - t' mod 1000 + 330 * msPerMinute)
                 /\ convertUTCToTimezone h out IST <> out).
  { intros Hy. pose proof (render_reparse t' ltac:(lia)) as Hre. cbv zeta in Hre.
    assert (Hb : ((1000 <=? YearFromTime t') && (YearFromTime t' <=? 9999))
                 || ((-999999 <=? YearFromTime t') && (YearFromTime t' <=? -100000)) = true)
      by (rewrite orb_true_iff, !andb_true_iff, !Z.leb_le; lia).
    rewrite Hb in Hre. pose proof (Z.mod_pos_bound t' 1000 ltac:(lia)) as Hmod.
    destruct (of_string_standard h (renderUTC t' ++ "Z") _ _ Hre) as [_ Hv];
      [unfold maxTime in *; lia|].
    rewrite Z.sub_0_r in Hv.
    assert (Hsecond : convertUTCToTimezone h out IST
                      = renderUTC (t' - t' mod 1000 + 330 * msPerMinute)).
    { rewrite Hnext, Hout, (shiftIST_valid _ _ Hv), formatUTCFields_valid.
      - f_equal.
      - assert (Hup : t' < 253402300800000).
        { destruct Hy as [Hy|Hy].
          - pose proof (four_digit_year_range _ Hy). lia.
          - pose proof (YearFromTime_bounds t' (-271821) (-100000) ltac:(lia)) as Hb'.
            assert (msPerDay * DayFromYear (-100000 + 1) < 0) by (vm_compute; reflexivity).
            lia. }
        unfold maxTime in *. lia. }
    split; [exact Hsecond|]. rewrite Hsecond, Hout. intros E.
    apply renderUTC_inj in E. unfold msPerMinute in E.
    Z.div_mod_to_equations. lia. }
  split; [|split; [exact Hstd|]].
  - rewrite Hnext.
    destruct (Date.DateValue (Date.of_string h (out ++ "Z"))) as [|s] eqn:Hv.
    + rewrite (shiftIST_invalid _ Hv), formatUTCFields_invalid. split.
      * intros E. exfalso. rewrite Hout in E. symmetry in E.
        exact (renderUTC_not_invalid _ E).
      * intros (s & E & _). discriminate E.
    + pose proof (of_string_range _ _ _ Hv) as Hsr.
      destruct (Z.le_gt_cases (s + 330 * msPerMinute) maxTime) as [Hle|Hgt].
      * rewrite (shiftIST_valid _ s Hv) by (unfold maxTime, msPerMinute in *; lia).
        rewrite formatUTCFields_valid, Hout. split.
        -- intros E. apply renderUTC_inj in E. exists s.
           split; [reflexivity|]. split; [assumption|].
           unfold msPerMinute. replace (s + 330 * 60000) with (s + 19800000) by lia.
           exact E.
        -- intros (s' & E & _ & Hsec). injection E as <-.
           apply renderUTC_seconds. unfold msPerMinute in Hsec.
           replace (s + 19800000) with (s + 330 * 60000) by lia. exact Hsec.
      * rewrite (shiftIST_overflow _ s Hv) by (unfold maxTime, msPerMinute in *; lia).
        rewrite formatUTCFields_invalid. split.
        -- intros E. exfalso. rewrite Hout in E. symmetry in E.
           exact (renderUTC_not_invalid _ E).
        -- intros (s' & E & Hle & _). injection E as <-. lia.
  - intros Hleg.
    destruct (Z_le_gt_dec 1000 (YearFromTime t')) as [H1|H1];
      [destruct (Z_le_gt_dec (YearFromTime t') 9999) as [H2|H2]|].
    + apply Hstd. lia.
    + pose proof (render_reparse t' ltac:(lia)) as Hre. cbv zeta in Hre.
      assert (Hb : ((1000 <=? YearFromTime t') && (YearFromTime t' <=? 9999))
                   || ((-999999 <=? YearFromTime t') && (YearFromTime t' <=? -100000))
                   = false)
        by (rewrite orb_false_iff, !andb_false_iff, !Z.leb_gt; lia).
      rewrite Hb in Hre. rewrite <- Hout in Hre.
      rewrite Hnext. pose proof (of_string_legacy h _ Hre) as Hv. rewrite Hleg in Hv.
      rewrite (shiftIST_invalid _ Hv), formatUTCFields_invalid, Hout.
      intros E. symmetry in E. exact (renderUTC_not_invalid _ E).
    + destruct (Z_le_gt_dec (YearFromTime t') (-100000)) as [H3|H3]; [apply Hstd; lia|].
      pose proof (render_reparse t' ltac:(lia)) as Hre. cbv zeta in Hre.
      assert (Hb : ((1000 <=? YearFromTime t') && (YearFromTime t' <=? 9999))
                   || ((-999999 <=? YearFromTime t') && (YearFromTime t' <=? -100000))
                   = false)
        by (rewrite orb_false_iff, !andb_false_iff, !Z.leb_gt; lia).
      rewrite Hb in Hre. rewrite <- Hout in Hre.
      rewrite Hnext. pose proof (of_string_legacy h _ Hre) as Hv. rewrite Hleg in Hv.
      rewrite (shiftIST_invalid _ Hv), formatUTCFields_invalid, Hout.
      intros E. symmetry in E. exact (renderUTC_not_invalid _ E).
Qed.

Lemma double_shift_witness :
  isSentinel "-271821-04-20T00:00:00Z" = false
  /\ Date.DateValue
       (Date.of_string strict_ist_host (parseArgument "-271821-04-20T00:00:00Z"))
     = JS.Int (-8640000000000000)
  /\ convertUTCToTimezone strict_ist_host "-271821-04-20T00:00:00Z" IST
     = "-271821-04-20T05:30:00"
  /\ convertUTCToTimezone strict_ist_host
       (convertUTCToTimezone strict_ist_host "-271821-04-20T00:00:00Z" IST) IST
     <> convertUTCToTimezone strict_ist_host "-271821-04-20T00:00:00Z" IST.
Proof.
  split; [reflexivity|]. split; [vm_compute; reflexivity|].
  split; [vm_compute; reflexivity|].
  refine (proj2 (proj1 (proj2
    (double_shift strict_ist_host "-271821-04-20T00:00:00Z" (-8640000000000000)
       eq_refl _ _)) _)).
  - vm_compute. reflexivity.
  - vm_compute. discriminate.
  - right. vm_compute. discriminate.
Defined.

(** C8 as stated fails at the end of the time range: the input parses to
    a valid instant, the shifted date is invalid, and the text printed for
    it is printed again when the function is applied to it. *)
Lemma invalid_text_printed_again :
  isSentinel "+275760-09-13T00:00:00Z" = false
  /\ Date.DateValue
       (Date.of_string strict_utc_host (parseArgument "+275760-09-13T00:00:00Z"))
     = JS.Int 8640000000000000
  /\ convertUTCToTimezone strict_utc_host
       (convertUTCToTimezone strict_utc_host "+275760-09-13T00:00:00Z" IST) IST
     = convertUTCToTimezone strict_utc_host "+275760-09-13T00:00:00Z" IST.
Proof. repeat split; vm_compute; reflexivity. Qed.




(** ** Further properties of the two functions *)


(** X1.  A standard date-time string without UTC offset and without a
    [+] is read as UTC on every host, whatever its local time zone: both
    functions return the date and time the string spells, moved ahead by
    330 minutes. *)
Theorem offsetless_input_read_as_utc (h : Host) (x : string) (t : Z) :
  Date.iso_fields x = Some (t, None) ->
  JS.includes x "+" = false ->
  - maxTime <= t ->
  t + 330 * msPerMinute <= maxTime ->
  convertUTCToTimezone h x IST = renderUTC (t + 330 * msPerMinute)
  /\ convertUTCToIST h x = renderUTC (t + 330 * msPerMinute).
Proof.
  intros E HP Hlo Hhi.
  pose proof (iso_fields_not_sentinel _ _ _ E) as Hs.
  destruct (iso_local_shape _ _ E) as [HT HZ].
  assert (Ha : parseArgument x = x ++ "Z")
    by (unfold parseArgument; now rewrite HZ, HP, HT).
  assert (Hd : Date.DateValue (Date.of_string h (parseArgument x)) = JS.Int t).
  { rewrite Ha. pose proof (iso_fields_Z _ _ _ E) as EZ. cbv beta iota in EZ.
    assert (Hr : Z.abs (t - 0) <= maxTime) by (unfold msPerMinute in Hhi; lia).
    destruct (of_string_standard h (x ++ "Z") t 0 EZ Hr) as [_ Hv].
    now rewrite Z.sub_0_r in Hv. }
  rewrite convertUTCToIST_body by assumption.
  rewrite <- convertUTCToTimezone_IST by assumption.
  rewrite (convert_valid h x t Hs Hd Hhi).
  replace (t + 330 * msPerMinute) with (t + 19800000) by (unfold msPerMinute; lia).
  split; reflexivity.
Qed.

Lemma offsetless_input_read_as_utc_witness :
  Date.iso_fields "2024-01-01T20:15:30.500" = Some (1704140130500, None)
  /\ convertUTCToTimezone strict_ist_host "2024-01-01T20:15:30.500" IST
     = renderUTC (1704140130500 + 330 * msPerMinute).
Proof.
  split; [reflexivity|].
  exact (proj1 (offsetless_input_read_as_utc strict_ist_host "2024-01-01T20:15:30.500"
                  1704140130500 eq_refl eq_refl
                  ltac:(vm_compute; discriminate) ltac:(vm_compute; discriminate))).
Defined.

(** X2.  A standard date-time string that carries an offset and holds a
    [T] but neither [Z] nor [+] (the offset is then a negative one, and
    the year is not written with a [+]) gets a [Z] appended and is no
    standard string any more: what it means is left to the host's own
    heuristics, and where the host rejects it both functions return the
    NaN text. *)
Theorem negative_offset_leaves_format (h : Host) (x : string) (t o : Z) :
  Date.iso_fields x = Some (t, Some o) ->
  JS.includes x "T" = true ->
  JS.includes x "Z" = false ->
  JS.includes x "+" = false ->
  Date.iso_fields (parseArgument x) = None
  /\ Date.DateValue (Date.of_string h (parseArgument x))
     = TimeClip (Date.legacy_parse h (x ++ "Z"))
  /\ (Date.legacy_parse h (x ++ "Z") = JS.NaN ->
      convertUTCToTimezone h x IST = "NaN-NaN-NaNTNaN:NaN:NaN"
      /\ convertUTCToIST h x = "NaN-NaN-NaNTNaN:NaN:NaN").
Proof.
  intros E HT HZ HP.
  pose proof (iso_fields_not_sentinel _ _ _ E) as Hs.
  assert (Ha : parseArgument x = x ++ "Z")
    by (unfold parseArgument; now rewrite HZ, HP, HT).
  pose proof (iso_fields_Z _ _ _ E) as EZ. cbv beta iota in EZ.
  pose proof (of_string_legacy h _ EZ) as Hv.
  split; [now rewrite Ha|]. split; [now rewrite Ha|].
  intros Hn. rewrite Hn in Hv. rewrite <- Ha in Hv.
  rewrite convertUTCToIST_body by assumption.
  rewrite <- convertUTCToTimezone_IST by assumption.
  rewrite convertUTCToTimezone_IST by assumption.
  rewrite (shiftIST_invalid _ Hv). split; reflexivity.
Qed.

Lemma negative_offset_leaves_format_witness :
  Date.iso_fields "2024-01-01T10:00:00-08:00" = Some (1704103200000, Some (-28800000))
  /\ convertUTCToTimezone strict_utc_host "2024-01-01T10:00:00-08:00" IST
     = "NaN-NaN-NaNTNaN:NaN:NaN".
Proof.
  split; [reflexivity|].
  exact (proj1 (proj2 (proj2
    (negative_offset_leaves_format strict_utc_host "2024-01-01T10:00:00-08:00"
       1704103200000 (-28800000) eq_refl eq_refl eq_refl eq_refl)) eq_refl)).
Defined.

(** X3.  For a non-sentinel input and zone IST the NaN text comes out in
    exactly two cases: the parse is no valid instant, or it is one within
    330 minutes of the end of the time range.  The shift never leaves the
    range at its lower end. *)
Theorem NaN_text_iff (h : Host) (x : string) :
  isSentinel x = false ->
  (convertUTCToTimezone h x IST = "NaN-NaN-NaNTNaN:NaN:NaN"
   <-> Date.DateValue (Date.of_string h (parseArgument x)) = JS.NaN
       \/ exists t, Date.DateValue (Date.of_string h (parseArgument x)) = JS.Int t
                    /\ maxTime < t + 330 * msPerMinute).
Proof.
  intros Hs. rewrite convertUTCToTimezone_IST by assumption.
  destruct (Date.DateValue (Date.of_string h (parseArgument x))) as [|t] eqn:Hd.
  - rewrite (shiftIST_invalid _ Hd). split; [auto|reflexivity].
  - pose proof (of_string_range _ _ _ Hd) as Hr.
    destruct (Z.le_gt_cases (t + 330 * msPerMinute) maxTime) as [Hle|Hgt].
    + rewrite (shiftIST_valid _ t Hd) by (unfold maxTime, msPerMinute in *; lia).
      rewrite formatUTCFields_valid. split.
      * intros E. exfalso. exact (renderUTC_not_invalid _ E).
      * intros [E|(t' & E & Hgt)]; [discriminate|]. injection E as <-. lia.
    + rewrite (shiftIST_overflow _ t Hd) by (unfold maxTime, msPerMinute in *; lia).
      split; [|reflexivity]. intros _. right. exists t. split; [reflexivity|lia].
Qed.

Lemma NaN_text_iff_witness :
  isSentinel "2024-13-01" = false
  /\ convertUTCToTimezone strict_utc_host "2024-13-01" IST = "NaN-NaN-NaNTNaN:NaN:NaN".
Proof.
  split; [reflexivity|].
  apply (proj2 (NaN_text_iff strict_utc_host "2024-13-01" eq_refl)).
  left. reflexivity.
Defined.

(** X4.  The result is a sentinel exactly when the input is one: no date
    is ever turned into an open range end, for either zone. *)
Theorem sentinel_out_iff_sentinel_in (h : Host) (x : string) (zone : TimezoneType) :
  isSentinel (convertUTCToTimezone h x zone) = isSentinel x
  /\ isSentinel (convertUTCToIST h x) = isSentinel x.
Proof.
  destruct (isSentinel x) eqn:Hs.
  - split.
    + now rewrite convertUTCToTimezone_sentinel.
    + unfold convertUTCToIST. fold (isSentinel x). now rewrite Hs.
  - assert (Hi : isSentinel (convertUTCToTimezone h x IST) = false).
    { destruct (convert_cases h x Hs) as [->|[t ->]];
        [reflexivity | apply renderUTC_never_sentinel]. }
    split.
    + destruct zone; [|exact Hi].
      unfold convertUTCToTimezone. fold (isSentinel x). now rewrite Hs.
    + rewrite convertUTCToIST_body, <- convertUTCToTimezone_IST by assumption. exact Hi.
Qed.

(** X5.  Whatever comes out for a non-sentinel input and zone IST holds a
    [T] and neither [Z] nor [+]: given back to the function it takes the
    branch that appends [Z]. *)
Theorem output_takes_Z_branch (h : Host) (x : string) :
  isSentinel x = false ->
  let out := convertUTCToTimezone h x IST in
  JS.includes out "T" = true /\ JS.includes out "Z" = false
  /\ JS.includes out "+" = false /\ parseArgument out = out ++ "Z".
Proof.
  intros Hs out. unfold out.
  destruct (convert_cases h x Hs) as [->|[t ->]].
  - repeat split; reflexivity.
  - rewrite !renderUTC_includes by reflexivity. repeat split.
    apply renderUTC_appends_Z.
Qed.

Lemma output_takes_Z_branch_witness :
  isSentinel "not-a-date" = false
  /\ parseArgument (convertUTCToTimezone strict_utc_host "not-a-date" IST)
     = convertUTCToTimezone strict_utc_host "not-a-date" IST ++ "Z".
Proof.
  split; [reflexivity|].
  exact (proj2 (proj2 (proj2 (output_takes_Z_branch strict_utc_host "not-a-date" eq_refl)))).
Defined.

(** X6.  When the shifted instant falls in a year of four digits the
    result has exactly the 19 characters of [YYYY-MM-DDTHH:mm:ss]. *)
Theorem output_length_19 (h : Host) (x : string) (t : Z) :
  isSentinel x = false ->
  Date.DateValue (Date.of_string h (parseArgument x)) = JS.Int t ->
  1000 <= YearFromTime (t + 330 * msPerMinute) <= 9999 ->
  String.length (convertUTCToTimezone h x IST) = 19%nat.
Proof.
  intros Hs Hd Hy.
  replace (t + 330 * msPerMinute) with (t + 19800000) in Hy by (unfold msPerMinute; lia).
  pose proof (four_digit_year_range _ Hy) as Hr.
  rewrite (convert_valid h x t Hs Hd) by (unfold maxTime, msPerMinute; lia).
  now apply renderUTC_length.
Qed.

Lemma output_length_19_witness :
  isSentinel "2024-01-01" = false
  /\ Date.DateValue (Date.of_string strict_utc_host (parseArgument "2024-01-01"))
     = JS.Int 1704067200000
  /\ String.length (convertUTCToTimezone strict_utc_host "2024-01-01" IST) = 19%nat.
Proof.
  split; [reflexivity|]. split; [reflexivity|].
  exact (output_length_19 strict_utc_host "2024-01-01" 1704067200000 eq_refl eq_refl
           ltac:(vm_compute; split; discriminate)).
Defined.

(** X7.  The year is printed without padding: when the shifted instant
    falls in the years 0 to 999 the result is shorter than the 19
    characters of [YYYY-MM-DDTHH:mm:ss]. *)
Theorem year_not_padded (h : Host) (x : string) (t : Z) :
  isSentinel x = false ->
  Date.DateValue (Date.of_string h (parseArgument x)) = JS.Int t ->
  0 <= YearFromTime (t + 330 * msPerMinute) <= 999 ->
  (String.length (convertUTCToTimezone h x IST) < 19)%nat.
Proof.
  intros Hs Hd Hy.
  replace (t + 330 * msPerMinute) with (t + 19800000) in Hy by (unfold msPerMinute; lia).
  assert (Hr : t + 19800000 < 253402300800000).
  { pose proof (YearFromTime_bounds (t + 19800000) 0 9999 ltac:(lia)) as Hb.
    change (msPerDay * DayFromYear (9999 + 1)) with 253402300800000 in Hb. lia. }
  rewrite (convert_valid h x t Hs Hd) by (unfold maxTime, msPerMinute; lia).
  rewrite renderUTC_length_year.
  pose proof (year_short_all _ Hy) as Hl. apply Nat.leb_le in Hl. lia.
Qed.

Lemma year_not_padded_witness :
  isSentinel "0099-12-31T23:59:59Z" = false
  /\ convertUTCToTimezone strict_utc_host "0099-12-31T23:59:59Z" IST = "100-01-01T05:29:59"
  /\ (String.length (convertUTCToTimezone strict_utc_host "0099-12-31T23:59:59Z" IST) < 19)%nat.
Proof.
  split; [reflexivity|]. split; [vm_compute; reflexivity|].
  exact (year_not_padded strict_utc_host "0099-12-31T23:59:59Z" (-59011459201000)
           eq_refl eq_refl ltac:(vm_compute; split; discriminate)).
Defined.

(** X8.  Two inputs whose shifted instants fall in years of four digits
    give the same result exactly when their instants agree to the second:
    milliseconds are dropped and nothing else is lost. *)
Theorem equal_outputs_iff_same_second (h : Host) (x1 x2 : string) (t1 t2 : Z) :
  isSentinel x1 = false -> isSentinel x2 = false ->
  Date.DateValue (Date.of_string h (parseArgument x1)) = JS.Int t1 ->
  Date.DateValue (Date.of_string h (parseArgument x2)) = JS.Int t2 ->
  1000 <= YearFromTime (t1 + 330 * msPerMinute) <= 9999 ->
  1000 <= YearFromTime (t2 + 330 * msPerMinute) <= 9999 ->
  (convertUTCToTimezone h x1 IST = convertUTCToTimezone h x2 IST
   <-> t1 / 1000 = t2 / 1000).
Proof.
  intros Hs1 Hs2 Hd1 Hd2 Hy1 Hy2.
  replace (t1 + 330 * msPerMinute) with (t1 + 19800000) in Hy1 by (unfold msPerMinute; lia).
  replace (t2 + 330 * msPerMinute) with (t2 + 19800000) in Hy2 by (unfold msPerMinute; lia).
  pose proof (four_digit_year_range _ Hy1). pose proof (four_digit_year_range _ Hy2).
  rewrite (convert_valid h x1 t1 Hs1 Hd1) by (unfold maxTime, msPerMinute; lia).
  rewrite (convert_valid h x2 t2 Hs2 Hd2) by (unfold maxTime, msPerMinute; lia).
  split.
  - intros E.
    pose proof (iso_fields_render _ Hy1) as P1. pose proof (iso_fields_render _ Hy2) as P2.
    rewrite E, P2 in P1. injection P1 as P1.
    Z.div_mod_to_equations. lia.
  - intros E. apply renderUTC_seconds. Z.div_mod_to_equations. lia.
Qed.

Lemma equal_outputs_iff_same_second_witness :
  1704067200999 / 1000 = 1704067200000 / 1000
  /\ convertUTCToTimezone strict_utc_host "2024-01-01T00:00:00.999Z" IST
     = convertUTCToTimezone strict_utc_host "2024-01-01T00:00:00" IST.
Proof.
  split; [reflexivity|].
  apply (proj2 (equal_outputs_iff_same_second strict_utc_host
                  "2024-01-01T00:00:00.999Z" "2024-01-01T00:00:00"
                  1704067200999 1704067200000 eq_refl eq_refl eq_refl eq_refl
                  ltac:(vm_compute; split; discriminate)
                  ltac:(vm_compute; split; discriminate))).
  reflexivity.
Defined.

(** X9.  When the shifted instant falls in a year of four digits, the
    result, given to [new Date] the way the function itself would give it
    (with [Z] appended), is read back on every host as the shifted instant
    cut to the second. *)
Theorem output_reads_back (h : Host) (x : string) (t : Z) :
  isSentinel x = false ->
  Date.DateValue (Date.of_string h (parseArgument x)) = JS.Int t ->
  1000 <= YearFromTime (t + 330 * msPerMinute) <= 9999 ->
  let t' := t + 330 * msPerMinute in
  Date.DateValue (Date.of_string h (parseArgument (convertUTCToTimezone h x IST)))
  = JS.Int (1000 * (t' / 1000)).
Proof.
  intros Hs Hd Hy t'. fold t' in Hy.
  assert (Ht' : t' = t + 19800000) by (unfold t', msPerMinute; lia).
  pose proof (four_digit_year_range _ Hy) as Hr.
  rewrite (convert_valid h x t Hs Hd) by (unfold maxTime, msPerMinute; lia).
  rewrite <- Ht', renderUTC_appends_Z.
  assert (Hb : Z.abs (t' - t' mod 1000 - 0) <= maxTime)
    by (unfold maxTime; Z.div_mod_to_equations; lia).
  destruct (of_string_standard h _ _ _ (iso_fields_render _ Hy) Hb) as [_ Hv].
  rewrite Hv. f_equal. Z.div_mod_to_equations. lia.
Qed.

Lemma output_reads_back_witness :
  isSentinel "2024-01-01T20:00:00.250" = false
  /\ Date.DateValue
       (Date.of_string strict_ist_host
          (parseArgument (convertUTCToTimezone strict_ist_host "2024-01-01T20:00:00.250" IST)))
     = JS.Int (1000 * ((1704139200250 + 330 * msPerMinute) / 1000)).
Proof.
  split; [reflexivity|].
  exact (output_reads_back strict_ist_host "2024-01-01T20:00:00.250" 1704139200250
           eq_refl eq_refl ltac:(vm_compute; split; discriminate)).
Defined.

(** X10.  The wall clock of the result, from the UTC fields of the parsed
    instant: the date is the same day before 18:30 UTC and the next day
    from 18:30 on; hours move by five, or six when the minutes pass the
    hour; minutes move by thirty; seconds stay. *)
Theorem wall_clock_of_result (h : Host) (x : string) (t : Z) :
  isSentinel x = false ->
  Date.DateValue (Date.of_string h (parseArgument x)) = JS.Int t ->
  t + 330 * msPerMinute <= maxTime ->
  convertUTCToTimezone h x IST
  = renderDate (if TimeWithinDay t <? 18 * msPerHour + 30 * msPerMinute
                then t else t + msPerDay)
      ++ "T" ++ pad2 ((HourFromTime t + 5 + (if MinFromTime t <? 30 then 0 else 1)) mod 24)
      ++ ":" ++ pad2 ((MinFromTime t + 30) mod 60)
      ++ ":" ++ pad2 (SecFromTime t).
Proof.
  intros Hs Hd Hmax.
  rewrite (convert_valid h x t Hs Hd Hmax), renderUTC_split.
  rewrite HourFromTime_shift, MinFromTime_add30, SecFromTime_shift.
  f_equal. apply renderDate_of_day. rewrite Day_shift.
  change (18 * msPerHour + 30 * msPerMinute) with 66600000.
  destruct (TimeWithinDay t <? 66600000); [lia|]. now rewrite Day_next.
Qed.

Lemma wall_clock_of_result_witness :
  isSentinel "2024-02-28T18:45:10" = false
  /\ Date.DateValue (Date.of_string strict_utc_host (parseArgument "2024-02-28T18:45:10"))
     = JS.Int 1709145910000
  /\ convertUTCToTimezone strict_utc_host "2024-02-28T18:45:10" IST
     = renderDate (1709145910000 + msPerDay) ++ "T" ++ pad2 0 ++ ":" ++ pad2 15
         ++ ":" ++ pad2 10.
Proof.
  split; [reflexivity|]. split; [reflexivity|].
  exact (wall_clock_of_result strict_utc_host "2024-02-28T18:45:10" 1709145910000
           eq_refl eq_refl ltac:(vm_compute; discriminate)).
Defined.

(** X11.  For an input that holds a [T] and neither [Z] nor [+], writing
    the [Z] oneself changes nothing: the function reads the input as if it
    ended in [Z], whether or not it is a date at all. *)
Theorem explicit_Z_changes_nothing (h : Host) (x : string) :
  JS.includes x "T" = true ->
  JS.includes x "Z" = false ->
  JS.includes x "+" = false ->
  convertUTCToTimezone h (x ++ "Z") IST = convertUTCToTimezone h x IST
  /\ convertUTCToIST h (x ++ "Z") = convertUTCToIST h x.
Proof.
  intros HT HZ HP.
  assert (HZ' : JS.includes (x ++ "Z") "Z" = true)
    by (rewrite includes_char_app; apply orb_true_r).
  assert (Hs : isSentinel x = false).
  { destruct (isSentinel x) eqn:E; [|reflexivity]. exfalso.
    unfold isSentinel in E. rewrite !orb_true_iff in E. destruct E as [[E|E]|E].
    - destruct x; [discriminate HT|discriminate E].
    - apply String.eqb_eq in E. subst. discriminate HT.
    - apply String.eqb_eq in E. subst. discriminate HT. }
  assert (Hs' : isSentinel (x ++ "Z") = false).
  { destruct (isSentinel (x ++ "Z")) eqn:E; [|reflexivity]. exfalso.
    unfold isSentinel in E. rewrite !orb_true_iff in E. destruct E as [[E|E]|E].
    - destruct x; discriminate E.
    - apply String.eqb_eq in E. rewrite E in HZ'. discriminate HZ'.
    - apply String.eqb_eq in E. rewrite E in HZ'. discriminate HZ'. }
  assert (Ha : parseArgument (x ++ "Z") = parseArgument x)
    by (unfold parseArgument; rewrite HZ', HZ, HP, HT; reflexivity).
  rewrite !convertUTCToIST_body, !convertUTCToTimezone_IST, Ha by assumption.
  split; reflexivity.
Qed.

Lemma explicit_Z_changes_nothing_witness :
  JS.includes "2024-01-01T20:00:00" "T" = true
  /\ convertUTCToTimezone strict_ist_host "2024-01-01T20:00:00Z" IST
     = convertUTCToTimezone strict_ist_host "2024-01-01T20:00:00" IST.
Proof.
  split; [reflexivity|].
  exact (proj1 (explicit_Z_changes_nothing strict_ist_host "2024-01-01T20:00:00"
                  eq_refl eq_refl eq_refl)).
Defined.
